(** * githubbot: GitHub webhooks relayed to a Telegram chat

    A shallow embedding of [server.ts].  The file follows the source from
    top to bottom: the JavaScript primitives the program calls, its type
    declarations, the host interface (HMAC, URL parser, JSON parser,
    [fetch]), the formatters, the [GitHubBot] class, the HTTP layer, and
    then the properties of the specification.

    Strings are sequences of 8-bit units ([Stdlib.Strings.String]); text
    outside ASCII is held in UTF-8, the encoding the source assumes for
    message text.  Positions in a string count these units, where the
    engine counts UTF-16 units: the two agree on ASCII text, and the
    properties that depend on where a text is cut say when they need it.
    Asynchronous functions are run to completion: every
    [await] in the source is taken immediately, so a [Promise] is the
    computation it resolves. *)

From Stdlib Require Import String Ascii ZArith List Lia Bool DecimalString.
Import ListNotations.
Open Scope string_scope.

(** ** JavaScript primitives used by the program *)

Module JS.

Definition LF : string := String (ascii_of_nat 10) "".
Definition DQ : string := String (ascii_of_nat 34) "".

(** [s.startsWith(p)] *)
Definition startsWith (s p : string) : bool := String.prefix p s.

(** [s.includes(sub)] *)
Fixpoint includes (s sub : string) : bool :=
  String.prefix sub s ||
  match s with
  | "" => false
  | String _ s' => includes s' sub
  end.

Fixpoint drop (n : nat) (s : string) : string :=
  match n, s with
  | O, _ => s
  | S _, "" => ""
  | S n', String _ s' => drop n' s'
  end.

(** First occurrence of [pat] in [s]: the text before it and the text
    after it. *)
Fixpoint search (s pat : string) : option (string * string) :=
  if String.prefix pat s then Some ("", drop (String.length pat) s)
  else match s with
       | "" => None
       | String c s' =>
           match search s' pat with
           | Some (before, after) => Some (String c before, after)
           | None => None
           end
       end.

(** GetSubstitution for a string pattern (no captures): [$$], [$&],
    [$`] and [$'] are expanded, every other [$] stands for itself. *)
Fixpoint GetSubstitution (matched before after rep : string) : string :=
  match rep with
  | "" => ""
  | String c rest =>
      if Ascii.eqb c "$" then
        match rest with
        | String d rest' =>
            if Ascii.eqb d "$" then "$" ++ GetSubstitution matched before after rest'
            else if Ascii.eqb d "&" then matched ++ GetSubstitution matched before after rest'
            else if Ascii.eqb d "`" then before ++ GetSubstitution matched before after rest'
            else if Ascii.eqb d "'" then after ++ GetSubstitution matched before after rest'
            else String c (GetSubstitution matched before after rest)
        | "" => String c ""
        end
      else String c (GetSubstitution matched before after rest)
  end.

(** [s.replace(pat, rep)] with a string pattern: the first occurrence
    only. *)
Definition replace (s pat rep : string) : string :=
  match search s pat with
  | Some (before, after) => before ++ GetSubstitution pat before after rep ++ after
  | None => s
  end.

(** [s.slice(from, to)] on integer arguments, in the units of this file
    (the engine's units on ASCII text). *)
Definition slice (s : string) (from to : Z) : string :=
  let len := Z.of_nat (String.length s) in
  let clamp i := if (i <? 0)%Z then Z.max (len + i) 0 else Z.min i len in
  let a := clamp from in
  let b := clamp to in
  substring (Z.to_nat a) (Z.to_nat (Z.max (b - a) 0)) s.

(** [s.split(sep)] for a separator of one unit. *)
Fixpoint split (s : string) (sep : ascii) : list string :=
  match s with
  | "" => [""]
  | String c s' =>
      if Ascii.eqb c sep then "" :: split s' sep
      else match split s' sep with
           | p :: ps => String c p :: ps
           | [] => [String c ""]
           end
  end.

(** [l.join(sep)] *)
Definition join (l : list string) (sep : string) : string := String.concat sep l.

(** *** Numbers

    The program handles numbers only as chat identifiers, entity offsets
    and message identifiers.  [number] holds the values [parseInt(_, 10)]
    can return: NaN, the infinities, and the doubles that are integers
    ([Finite z], with [z] the double's value).  The two zeros are not told
    apart: both print as [0]. *)

Inductive number : Type :=
| NaN
| PosInfinity
| NegInfinity
| Finite (z : Z).

Definition number_eqb (a b : number) : bool :=
  match a, b with
  | NaN, NaN => true
  | PosInfinity, PosInfinity => true
  | NegInfinity, NegInfinity => true
  | Finite x, Finite y => Z.eqb x y
  | _, _ => false
  end.

Local Open Scope Z_scope.

(** The double nearest to an integer (ties to even; 53 significant
    bits; overflow at 2^1024). *)
Definition round_to_double (z : Z) : number :=
  let a := Z.abs z in
  let bits := Z.log2 a + 1 in
  if bits <=? 53 then Finite z
  else
    let sh := bits - 53 in
    let q := Z.shiftr a sh in
    let r := Z.land a (Z.ones sh) in
    let half := Z.shiftl 1 (sh - 1) in
    let q' := if (half <? r) || ((r =? half) && Z.odd q) then q + 1 else q in
    let m := Z.shiftl q' sh in
    if Z.shiftl 1 1024 <=? m
    then (if z <? 0 then NegInfinity else PosInfinity)
    else Finite (if z <? 0 then - m else m).

(** StrWhiteSpaceChar, among the 8-bit units. *)
Definition isWhiteSpace (c : ascii) : bool :=
  let n := nat_of_ascii c in
  existsb (Nat.eqb n) [9; 10; 11; 12; 13; 32; 160]%nat.

Fixpoint trimStart (s : string) : string :=
  match s with
  | String c s' => if isWhiteSpace c then trimStart s' else s
  | "" => ""
  end.

Definition digitValue (c : ascii) : option Z :=
  let n := Z.of_nat (nat_of_ascii c) in
  if (48 <=? n) && (n <=? 57) then Some (n - 48) else None.

(** The value of the longest prefix of decimal digits; [acc] is [None]
    until a digit has been read. *)
Fixpoint leadingDigits (s : string) (acc : option Z) : option Z :=
  match s with
  | String c s' =>
      match digitValue c with
      | Some d =>
          leadingDigits s' (Some (10 * match acc with Some a => a | None => 0 end + d))
      | None => acc
      end
  | "" => acc
  end.

(** [parseInt(s, 10)] *)
Definition parseInt10 (s : string) : number :=
  let t := trimStart s in
  let '(negative, body) :=
    match t with
    | String c r =>
        if Ascii.eqb c "-" then (true, r)
        else if Ascii.eqb c "+" then (false, r)
        else (false, t)
    | "" => (false, t)
    end in
  match leadingDigits body None with
  | None => NaN
  | Some m => round_to_double (if negative then - m else m)
  end.

Definition decimal (z : Z) : string := NilZero.string_of_int (Z.to_int z).

Fixpoint zeros (n : nat) : string :=
  match n with
  | O => ""
  | S n' => String "0" (zeros n')
  end.

(** Number of decimal digits of a positive integer. *)
Definition digitCount (a : Z) : Z := Z.of_nat (String.length (decimal a)).

(** Number::toString, step 5, for a double [a] that is an integer above
    2^53: the least [k], and for it the [k]-digit [s] and the exponent
    [n], with [s * 10^(n-k)] a decimal that reads back as [a]; of two
    such [s] the nearer to [a], then the even one. *)
Fixpoint shortestDigits (fuel : nat) (k : Z) (a : Z) : Z * Z * Z :=
  let nd := digitCount a in
  let e := nd - k in
  let lo := a / 10 ^ e in
  let hi := lo + 1 in
  let ok_lo := number_eqb (round_to_double (lo * 10 ^ e)) (Finite a) in
  let ok_hi := number_eqb (round_to_double (hi * 10 ^ e)) (Finite a) in
  let pick_hi := if hi =? 10 ^ k then (k, 10 ^ (k - 1), nd + 1) else (k, hi, nd) in
  let pick_lo := (k, lo, nd) in
  let d_lo := a - lo * 10 ^ e in
  let d_hi := hi * 10 ^ e - a in
  if ok_lo && ok_hi then
    (if d_lo <? d_hi then pick_lo
     else if d_hi <? d_lo then pick_hi
     else if Z.even lo then pick_lo else pick_hi)
  else if ok_lo then pick_lo
  else if ok_hi then pick_hi
  else match fuel with
       | O => (nd, a, nd)
       | S fuel' => if k <? nd then shortestDigits fuel' (k + 1) a else (nd, a, nd)
       end.

Definition formatDigits (k s n : Z) : string :=
  let ds := decimal s in
  if n <=? 21 then ds ++ zeros (Z.to_nat (n - k))
  else match ds with
       | String d "" => String d "" ++ "e+" ++ decimal (n - 1)
       | String d rest => String d "" ++ "." ++ rest ++ "e+" ++ decimal (n - 1)
       | "" => ""
       end.

(** Number::toString (radix 10), as used by a template literal. *)
Definition NumberToString (x : number) : string :=
  match x with
  | NaN => "NaN"
  | PosInfinity => "Infinity"
  | NegInfinity => "-Infinity"
  | Finite z =>
      let a := Z.abs z in
      if a <=? 2 ^ 53 then decimal z
      else
        let '(k, s, n) := shortestDigits 17 1 a in
        (if z <? 0 then "-" else "") ++ formatDigits k s n
  end.

End JS.

Import JS.

(** ** Type declarations of [server.ts]

    Field names are those of the source, behind a prefix where two types
    share a name.  An optional field ([name?: T]) is an [option]. *)

Record Options : Type := {
  telegramToken : string;
  telegramSecret : string;
  secret : string;
  baseURL : string;
  listen : string;
}.

Record Params : Type := {
  silent : bool;
}.

Record GitHubUser : Type := {
  login : string;
  avatar_url : string;
  user_html_url : string;
}.

Record GitHubRepository : Type := {
  repo_name : string;
  full_name : string;
  private : bool;
  owner : GitHubUser;
  repo_html_url : string;
  branches_url : string;
  repo_url : string;
}.

Record GitHubCommitAuthor : Type := {
  author_name : string;
  email : string;
  username : string;
}.

Record GitHubCommit : Type := {
  commit_id : string;
  commit_message : string;
  timestamp : string;
  commit_url : string;
  author : GitHubCommitAuthor;
  added : list string;
  removed : list string;
  modified : list string;
}.

Record GitHubEventPing : Type := {
  zen : string;
  hook_id : Z;
}.

Record GitHubEventPush : Type := {
  ref : string;
  sender : GitHubUser;
  repository : GitHubRepository;
  commits : list GitHubCommit;
  compare : string;
  forced : bool;
}.

(** The parsed body of a GitHub delivery ([data: object]), read at one of
    the two declared payload types. *)
Inductive GitHubEventData : Type :=
| PingData (ping : GitHubEventPing)
| PushData (push : GitHubEventPush).

Record TelegramUser : Type := {
  user_id : Z;
  is_bot : bool;
  user_first_name : string;
  user_last_name : option string;
  user_username : option string;
  language_code : option string;
}.

Record TelegramChat : Type := {
  chat_ident : number;
  chat_type : string;
  title : option string;
  chat_username : option string;
  chat_first_name : option string;
  chat_last_name : option string;
}.

Record TelegramMessageEntity : Type := {
  entity_type : string;
  offset : Z;
  entity_length : Z;
}.

Record TelegramMessage : Type := {
  msg_message_id : Z;
  from : option TelegramUser;
  date : Z;
  chat : TelegramChat;
  msg_text : option string;
  entities : option (list TelegramMessageEntity);
}.

Record TelegramCallbackQuery : Type := {
  query_id : Z;
  query_message : option TelegramMessage;
  query_data : option string;
}.

Record TelegramUpdate : Type := {
  update_id : Z;
  message : option TelegramMessage;
  callback_query : option TelegramCallbackQuery;
}.

Record TelegramInlineKeyboardButton : Type := {
  button_text : string;
  callback_data : option string;
}.

Record TelegramInlineKeyboardMarkup : Type := {
  inline_keyboard : list (list TelegramInlineKeyboardButton);
}.

(** The objects the program builds for the chat platform: a
    [TelegramActionSendMessage], to which object literals add [method],
    [message_id] or [url].  An absent key is [None]; [{}] is
    [emptyObject]. *)
Record TelegramActionSendMessage : Type := {
  method : option string;
  chat_id : option number;
  message_id : option Z;
  text : option string;
  parse_mode : option string;
  disable_web_page_preview : option bool;
  disable_notification : option bool;
  reply_markup : option TelegramInlineKeyboardMarkup;
  url : option string;
}.

Definition emptyObject : TelegramActionSendMessage :=
  {| method := None; chat_id := None; message_id := None; text := None;
     parse_mode := None; disable_web_page_preview := None;
     disable_notification := None; reply_markup := None; url := None |}.

Definition override {A : Type} (old new : option A) : option A :=
  match new with
  | Some v => Some v
  | None => old
  end.

(** [{...a, ...b}]: the keys of [b] are written over those of [a]. *)
Definition spread (a b : TelegramActionSendMessage) : TelegramActionSendMessage :=
  {| method := override (method a) (method b);
     chat_id := override (chat_id a) (chat_id b);
     message_id := override (message_id a) (message_id b);
     text := override (text a) (text b);
     parse_mode := override (parse_mode a) (parse_mode b);
     disable_web_page_preview :=
       override (disable_web_page_preview a) (disable_web_page_preview b);
     disable_notification := override (disable_notification a) (disable_notification b);
     reply_markup := override (reply_markup a) (reply_markup b);
     url := override (url a) (url b) |}.

(** The object literal with the single key named. *)
Definition key_method (v : string) : TelegramActionSendMessage :=
  {| method := Some v; chat_id := None; message_id := None; text := None;
     parse_mode := None; disable_web_page_preview := None;
     disable_notification := None; reply_markup := None; url := None |}.

Definition key_chat_id (v : number) : TelegramActionSendMessage :=
  {| method := None; chat_id := Some v; message_id := None; text := None;
     parse_mode := None; disable_web_page_preview := None;
     disable_notification := None; reply_markup := None; url := None |}.

Definition key_message_id (v : Z) : TelegramActionSendMessage :=
  {| method := None; chat_id := None; message_id := Some v; text := None;
     parse_mode := None; disable_web_page_preview := None;
     disable_notification := None; reply_markup := None; url := None |}.

Definition key_text (v : string) : TelegramActionSendMessage :=
  {| method := None; chat_id := None; message_id := None; text := Some v;
     parse_mode := None; disable_web_page_preview := None;
     disable_notification := None; reply_markup := None; url := None |}.

Definition key_parse_mode (v : string) : TelegramActionSendMessage :=
  {| method := None; chat_id := None; message_id := None; text := None;
     parse_mode := Some v; disable_web_page_preview := None;
     disable_notification := None; reply_markup := None; url := None |}.

Definition key_disable_web_page_preview (v : bool) : TelegramActionSendMessage :=
  {| method := None; chat_id := None; message_id := None; text := None;
     parse_mode := None; disable_web_page_preview := Some v;
     disable_notification := None; reply_markup := None; url := None |}.

Definition key_disable_notification (v : bool) : TelegramActionSendMessage :=
  {| method := None; chat_id := None; message_id := None; text := None;
     parse_mode := None; disable_web_page_preview := None;
     disable_notification := Some v; reply_markup := None; url := None |}.

Definition key_reply_markup (v : TelegramInlineKeyboardMarkup) : TelegramActionSendMessage :=
  {| method := None; chat_id := None; message_id := None; text := None;
     parse_mode := None; disable_web_page_preview := None;
     disable_notification := None; reply_markup := Some v; url := None |}.

Definition key_url (v : string) : TelegramActionSendMessage :=
  {| method := None; chat_id := None; message_id := None; text := None;
     parse_mode := None; disable_web_page_preview := None;
     disable_notification := None; reply_markup := None; url := Some v |}.

(** An object literal [{k1: v1, ..., ...o, ...}]: its members are written
    in order, a later one over an earlier one. *)
Definition literal (members : list TelegramActionSendMessage) : TelegramActionSendMessage :=
  fold_left spread members emptyObject.

(** ** Exceptions, the outside world and the monad of the program *)

Inductive exn : Type :=
| Error (message : string)
| TypeError (message : string)
| SyntaxError (message : string).

Definition message_of (e : exn) : string :=
  match e with
  | Error m | TypeError m | SyntaxError m => m
  end.

(** Reading property [p] of [undefined]. *)
Definition undefinedProperty (p : string) : exn :=
  TypeError ("Cannot read property '" ++ p ++ "' of undefined").

Record FetchRequest : Type := {
  fetch_url : string;
  fetch_method : string;
  fetch_headers : list (string * string);
  fetch_body : TelegramActionSendMessage;
}.

(** What the program reads of a [fetch] response: [res.ok], [res.text()]
    and [res.json()], which rejects on a body that is not JSON. *)
Record FetchResponse : Type := {
  res_ok : bool;
  res_text : string;
  res_json : exn + string;
}.

Inductive level : Type := Info | Log | Warn | Err.

(** The effects of the program: the outbound calls it has issued and the
    lines it has written to the console, oldest first. *)
Record World : Type := {
  calls : list FetchRequest;
  console : list (level * string);
}.

Definition quiet : World := {| calls := []; console := [] |}.

Inductive result (A : Type) : Type :=
| Return (a : A)
| Throw (e : exn).
Arguments Return {A} a.
Arguments Throw {A} e.

Definition M (A : Type) : Type := World -> result A * World.

Definition ret {A : Type} (a : A) : M A := fun w => (Return a, w).

Definition throw {A : Type} (e : exn) : M A := fun w => (Throw e, w).

Definition bind {A B : Type} (c : M A) (k : A -> M B) : M B :=
  fun w =>
    match c w with
    | (Return a, w') => k a w'
    | (Throw e, w') => (Throw e, w')
    end.

Definition try_catch {A : Type} (c : M A) (handler : exn -> M A) : M A :=
  fun w =>
    match c w with
    | (Return a, w') => (Return a, w')
    | (Throw e, w') => handler e w'
    end.

Definition lift {A : Type} (r : exn + A) : M A :=
  match r with
  | inl e => throw e
  | inr a => ret a
  end.

Declare Scope js_scope.
Delimit Scope js_scope with js.
Notation "x <- c ;; k" := (bind c (fun x => k))
  (at level 61, c at next level, right associativity) : js_scope.
Notation "c ;;; k" := (bind c (fun _ => k))
  (at level 61, right associativity) : js_scope.
Open Scope js_scope.

Definition console_write (l : level) (line : string) : M unit :=
  fun w => (Return tt, {| calls := calls w; console := console w ++ [(l, line)] |}).

(** ** The host: what the program imports or finds in the runtime

    [hmac] is the imported HMAC function; [URL_parse url base] is
    [new URL(url, base)] as far as [pathname] and [searchParams] go;
    the two parsers are [JSON.parse] on a request body, read at the type
    the handler declares for it; [fetch] answers an outbound call; and
    [Object_prototype key] is the member a plain object inherits under
    [key], if any, as a function from the payload to the text it returns
    or the exception it throws. *)

Record URL : Type := {
  pathname : string;
  searchParams : list (string * string);
}.

Class Runtime : Type := {
  hmac : string -> string -> string -> string -> string -> string;
  URL_parse : string -> string -> URL;
  JSON_parse_GitHub : string -> exn + GitHubEventData;
  JSON_parse_Telegram : string -> exn + TelegramUpdate;
  fetch : FetchRequest -> exn + FetchResponse;
  Object_prototype : string -> option (GitHubEventData -> exn + string);
}.

(** [params.has(name)] *)
Definition URLSearchParams_has (params : list (string * string)) (name : string) : bool :=
  existsb (fun kv => String.eqb (fst kv) name) params.

(** ** The event formatters *)

Section Bot.

Context {host : Runtime}.

(** [githubEventFormatters['ping']] *)
Definition formatPing (ping : GitHubEventPing) : string :=
  "You successfully set up GitHub notifications." ++ LF ++
  "GitHub Zen: " ++ zen ping.

(** One line of the commit list. *)
Definition commitLine (commit : GitHubCommit) : string :=
  "`" ++ slice (commit_id commit) 0 7 ++ "` " ++ commit_message commit ++
  " - " ++ username (author commit).

Definition commitCount (push : GitHubEventPush) : Z :=
  Z.of_nat (List.length (commits push)).

(** [githubEventFormatters['push']] *)
Definition formatPush (push : GitHubEventPush) : string :=
  let branch := replace (ref push) "refs/heads/" "" in
  "[" ++ login (sender push) ++ "](" ++ user_html_url (sender push) ++ "): " ++ LF ++
  "[" ++ NumberToString (Finite (commitCount push)) ++ " new commit" ++
  (if Z.eqb (commitCount push) 1 then "" else "s") ++
  "](" ++ compare push ++ ") " ++ (if forced push then "force-" else "") ++
  "pushed to [`" ++ branch ++ "`](" ++
  replace (branches_url (repository push)) "{/branch}" ("/" ++ branch) ++ ")" ++ LF ++
  join (map commitLine (commits push)) LF ++ LF ++
  "[_" ++ full_name (repository push) ++ "_](" ++ repo_html_url (repository push) ++ ")".

(** [githubEventFormatters[key]]: the two own members, applied to the
    payload as the engine would (a push payload has no [zen], a ping
    payload no [ref]), or else the member inherited under [key]. *)
Definition githubEventFormatters (key : string)
  : option (GitHubEventData -> exn + string) :=
  if String.eqb key "ping" then
    Some (fun data =>
            match data with
            | PingData ping => inr (formatPing ping)
            | PushData _ => inr (formatPing {| zen := "undefined"; hook_id := 0 |})
            end)
  else if String.eqb key "push" then
    Some (fun data =>
            match data with
            | PushData push => inr (formatPush push)
            | PingData _ => inl (undefinedProperty "replace")
            end)
  else Object_prototype key.

(** ** class GitHubBot *)

Definition TELEGRAM_API_BASE_URL : string := "https://api.telegram.org/bot".

Record GitHubBot : Type := {
  options : Options;
}.

Definition telegramApi (this : GitHubBot) (action : string)
    (data : TelegramActionSendMessage) : M string :=
  let method := "POST" in
  let url := TELEGRAM_API_BASE_URL ++ telegramToken (options this) ++ "/" ++ action in
  let request :=
    {| fetch_url := url; fetch_method := method;
       fetch_headers := [("Content-Type", "application/json")];
       fetch_body := data |} in
  res <- (fun w => (match fetch request with
                    | inl e => Throw e
                    | inr r => Return r
                    end,
                    {| calls := calls w ++ [request]; console := console w |})) ;;
  if negb (res_ok res) then
    throw (Error ("Failure to perform API request: " ++ res_text res))
  else
    obj <- lift (res_json res) ;;
    ret obj.

Definition setupTelegramWebhook (this : GitHubBot) : M unit :=
  console_write Info "Setting up webhook..." ;;;
  _ <- telegramApi this "setWebhook"
         (literal [key_url (baseURL (options this) ++ "/telegramUpdate/" ++
                            telegramSecret (options this))]) ;;
  console_write Log "Webhook ready".

Definition setup (this : GitHubBot) : M unit :=
  setupTelegramWebhook this.

Definition safeHMAC (this : GitHubBot) (data : string) : string :=
  let hash := hmac "sha1" (secret (options this)) data "utf8" "base64" in
  replace (replace (replace hash "+" "-") "/" "_") "=" "".

Definition generateWebhookURL (this : GitHubBot) (chatID : number) : string :=
  let chatToken := safeHMAC this (NumberToString chatID) in
  baseURL (options this) ++ "/github/" ++ NumberToString chatID ++ "/" ++ chatToken.

Definition verifyWebhookURL (this : GitHubBot) (chatID : number) (chatToken : string) : bool :=
  String.eqb (safeHMAC this (NumberToString chatID)) chatToken.

Definition formatEventMessage (event : option string) (data : GitHubEventData)
  : exn + TelegramActionSendMessage :=
  let key := match event with Some e => e | None => "null" end in
  match githubEventFormatters key with
  | None => inl (Error ("invalid: Event type " ++ DQ ++ key ++ DQ ++ " is not known"))
  | Some formatter =>
      match formatter data with
      | inl e => inl e
      | inr text =>
          inr (literal [key_parse_mode "Markdown"; key_text text;
                        key_disable_web_page_preview true])
      end
  end.

Definition setupText (url : string) : string :=
  "*Steps*" ++ LF ++ LF ++
  "1. Open " ++ DQ ++ "Settings" ++ DQ ++ " → " ++ DQ ++ "Webhooks" ++ DQ ++ " → " ++
  DQ ++ "Add Webhook" ++ DQ ++ " in your GitHub repository." ++ LF ++
  "2. Paste the following URL as " ++ DQ ++ "Payload URL" ++ DQ ++ ":" ++ LF ++
  url ++ LF ++
  "3. Under " ++ DQ ++ "Content-Type" ++ DQ ++ ", choose " ++ DQ ++ "application/json" ++ DQ ++
  LF ++ LF ++
  "Press " ++ DQ ++ "Add webhook" ++ DQ ++
  " and you're done. You can optionally choose specific events to send a message for.".

Definition formatSetupMessage (this : GitHubBot) (chatID : number)
  : TelegramActionSendMessage :=
  let url := generateWebhookURL this chatID in
  literal [key_parse_mode "Markdown"; key_text (setupText url);
           key_disable_web_page_preview true].

Definition advancedText : string :=
  LF ++ LF ++ "*Advanced Flags*" ++ LF ++ LF ++
  "Pass these flags as query parameters. For example: <url>?silent" ++ LF ++ LF ++
  "• `silent` - Makes events silent" ++ LF ++ LF.

Definition formatSetupAdvancedMessage (this : GitHubBot) (chatID : number)
  : TelegramActionSendMessage :=
  let text := match text (formatSetupMessage this chatID) with
              | Some t => t
              | None => "undefined"
              end in
  literal [key_parse_mode "Markdown"; key_text (text ++ advancedText);
           key_disable_web_page_preview true].

Definition formatUnknownCommandMessage (command : string) : TelegramActionSendMessage :=
  literal [key_text ("Oops, I don't understand your command " ++ command)].

Definition updateMessageSetupAdvanced (this : GitHubBot) (message : TelegramMessage)
  : M unit :=
  _ <- telegramApi this "editMessageText"
         (literal [key_chat_id (chat_ident (chat message));
                   key_message_id (msg_message_id message);
                   formatSetupAdvancedMessage this (chat_ident (chat message))]) ;;
  ret tt.

Definition githubEvent (this : GitHubBot) (chatID : number) (chatToken : string)
    (params : Params) (event : option string) (data : GitHubEventData)
  : M TelegramActionSendMessage :=
  if negb (verifyWebhookURL this chatID chatToken) then
    throw (Error "invalid: chatToken")
  else
    message <- lift (formatEventMessage event data) ;;
    _ <- telegramApi this "sendMessage"
           (literal [key_chat_id chatID;
                     key_disable_notification (silent params);
                     message]) ;;
    ret (literal []).

Definition advancedSetupButton : TelegramInlineKeyboardButton :=
  {| button_text := "Advanced Setup";
     callback_data := Some "updateMessageSetupAdvanced" |}.

(** The result is [None] where the source returns [undefined]. *)
Definition telegramUpdate (this : GitHubBot) (secret : string) (data : TelegramUpdate)
  : M (option TelegramActionSendMessage) :=
  if negb (String.eqb secret (telegramSecret (options this))) then
    throw (Error "invalid: telegramSecret")
  else
    match message data with
    | Some message =>
        (* Probably a command *)
        match entities message with
        | None | Some [] =>
            console_write Warn
              "ignored: No entities found in Telegram message: [object Object]" ;;;
            ret None
        | Some (entity0 :: _) =>
            match msg_text message with
            | None => throw (undefinedProperty "slice")
            | Some text =>
                let firstEntity :=
                  slice text (offset entity0) (offset entity0 + entity_length entity0) in
                let command := hd "" (split firstEntity "@") in
                if String.eqb command "/setup" then
                  ret (Some (literal
                    [key_method "sendMessage";
                     key_chat_id (chat_ident (chat message));
                     formatSetupMessage this (chat_ident (chat message));
                     key_reply_markup
                       {| inline_keyboard := [[advancedSetupButton]] |}]))
                else
                  ret (Some (literal
                    [key_method "sendMessage";
                     key_chat_id (chat_ident (chat message));
                     formatUnknownCommandMessage command]))
            end
        end
    | None =>
        match callback_query data with
        | Some callback_query =>
            (* Callback query *)
            match query_message callback_query, query_data callback_query with
            | Some message, Some action =>
                if String.eqb action "" then
                  console_write Warn "ignored: Callback query mode is not known" ;;;
                  ret None
                else
                  (if String.eqb action "updateMessageSetupAdvanced"
                   then updateMessageSetupAdvanced this message
                   else ret tt) ;;;
                  ret (Some (literal [key_method "answerCallbackQuery"]))
            | _, _ =>
                console_write Warn "ignored: Callback query mode is not known" ;;;
                ret None
            end
        | None =>
            console_write Warn
              "ignored: Unknown Telegram update received: [object Object]" ;;;
            ret None
        end
    end.

(** ** The HTTP layer *)

(** [req.headers] is held as its [get] method. *)
Record ServerRequest : Type := {
  req_method : string;
  req_url : string;
  req_headers : string -> option string;
  req_body : string;
}.

(** A response body: plain text, or the JSON text of an object. *)
Inductive Body : Type :=
| Plain (s : string)
| Json (o : TelegramActionSendMessage).

Record Response : Type := {
  status : Z;
  headers : list (string * string);
  body : Body;
}.

Definition respondIfReply (reply : option TelegramActionSendMessage) : Response :=
  match reply with
  | Some reply =>
      {| status := 200;
         headers := [("Content-Type", "application/json")];
         body := Json reply |}
  | None =>
      {| status := 200; headers := []; body := Plain "Success" |}
  end.

Definition serveGitHubWebhook (req : ServerRequest) (bot : GitHubBot)
    (parts : string * string) (urlParams : list (string * string)) : M Response :=
  let chatID := parseInt10 (fst parts) in
  let chatToken := snd parts in
  let params := {| silent := URLSearchParams_has urlParams "silent" |} in
  data <- lift (JSON_parse_GitHub (req_body req)) ;;
  let event := req_headers req "X-GitHub-Event" in
  reply <- githubEvent bot chatID chatToken params event data ;;
  ret (respondIfReply (Some reply)).

Definition serveTelegramWebhook (req : ServerRequest) (bot : GitHubBot)
    (parts : string) (params : list (string * string)) : M Response :=
  let telegramSecret := parts in
  data <- lift (JSON_parse_Telegram (req_body req)) ;;
  reply <- telegramUpdate bot telegramSecret data ;;
  ret (respondIfReply reply).

Definition serveBadRequest : M Response :=
  ret {| status := 400; headers := []; body := Plain "Bad Request" |}.

Definition serveNotFound : M Response :=
  ret {| status := 404; headers := []; body := Plain "Not Found" |}.

Definition serveMethodNotAllowed : M Response :=
  ret {| status := 405; headers := []; body := Plain "Method Not Allowed" |}.

Definition serveInternalServerError : M Response :=
  ret {| status := 500; headers := []; body := Plain "Unknown Internal Server Error" |}.

(** The non-empty segments of a path: [pathname.split("/").filter(part => part)]. *)
Definition pathParts (pathname : string) : list string :=
  filter (fun part => negb (String.eqb part "")) (split pathname "/").

Definition route (req : ServerRequest) (bot : GitHubBot) : M Response :=
  let url := URL_parse (req_url req) "https://localhost" in
  let params := searchParams url in
  let parts := pathParts (pathname url) in
  match parts with
  | [part0; part1] =>
      if negb (String.eqb (req_method req) "POST") then serveMethodNotAllowed
      else if String.eqb part0 "telegramUpdate" then
        serveTelegramWebhook req bot part1 params
      else serveNotFound
  | [part0; part1; part2] =>
      if negb (String.eqb (req_method req) "POST") then serveMethodNotAllowed
      else if String.eqb part0 "github" then
        serveGitHubWebhook req bot (part1, part2) params
      else serveNotFound
  | _ => serveNotFound
  end.

(** The request callback of [main]: the response handed to
    [req.respond]. *)
Definition main_handler (bot : GitHubBot) (req : ServerRequest) : M Response :=
  try_catch (route req bot)
    (fun e =>
       if startsWith (message_of e) "invalid" then serveBadRequest
       else
         response <- serveInternalServerError ;;
         console_write Err (message_of e) ;;;
         ret response).

End Bot.

(** ** The URL-safe alphabet, as the specification words it

    One pass over the base64 text: the first [+] becomes [-], the first
    [/] becomes [_], the first [=] is dropped, and every later
    occurrence of the three is copied.  The flags say which of the three
    has been met already. *)
Fixpoint firstOccurrenceOnly (plus slash equals : bool) (s : string) : string :=
  match s with
  | "" => ""
  | String c s' =>
      if Ascii.eqb c "+" && negb plus
      then String "-" (firstOccurrenceOnly true slash equals s')
      else if Ascii.eqb c "/" && negb slash
      then String "_" (firstOccurrenceOnly plus true equals s')
      else if Ascii.eqb c "=" && negb equals
      then firstOccurrenceOnly plus slash true s'
      else String c (firstOccurrenceOnly plus slash equals s')
  end.

(** ** A host to run the program on

    A stand-in for the imported functions, used to evaluate the program on
    examples: the HMAC is a fixed rearrangement with enough [+] and [=]
    to exercise [safeHMAC]; a URL is cut at its first [?]; a request
    body names the payload it stands for; every outbound call succeeds. *)

Definition exampleUser : GitHubUser :=
  {| login := "octocat"; avatar_url := "https://example.org/a.png";
     user_html_url := "https://github.com/octocat" |}.

Definition exampleRepository : GitHubRepository :=
  {| repo_name := "hello"; full_name := "octocat/hello"; private := false;
     owner := exampleUser; repo_html_url := "https://github.com/octocat/hello";
     branches_url := "https://github.com/octocat/hello/branches{/branch}";
     repo_url := "https://github.com/octocat/hello" |}.

Definition exampleCommit (id msg : string) : GitHubCommit :=
  {| commit_id := id; commit_message := msg; timestamp := "2019-06-01T00:00:00Z";
     commit_url := "https://github.com/octocat/hello/commit/" ++ id;
     author := {| author_name := "Octo Cat"; email := "octo@example.org";
                  username := "octocat" |};
     added := []; removed := []; modified := [] |}.

Definition examplePush (who : string) (n : nat) (force : bool) : GitHubEventPush :=
  {| ref := "refs/heads/master";
     sender := {| login := who; avatar_url := ""; user_html_url := "https://github.com/" ++ who |};
     repository := exampleRepository;
     commits := repeat (exampleCommit "0123456789abcdef" "Fix it") n;
     compare := "https://github.com/octocat/hello/compare/a...b";
     forced := force |}.

Definition exampleChat (n : number) : TelegramChat :=
  {| chat_ident := n; chat_type := "group"; title := None; chat_username := None;
     chat_first_name := None; chat_last_name := None |}.

Definition exampleMessage (n : number) (t : option string)
    (es : option (list TelegramMessageEntity)) : TelegramMessage :=
  {| msg_message_id := 7; from := None; date := 0; chat := exampleChat n;
     msg_text := t; entities := es |}.

Definition exampleQuery (action : option string) : TelegramCallbackQuery :=
  {| query_id := 1; query_message := Some (exampleMessage (Finite 42) None None);
     query_data := action |}.

(** A request target cut at its first [?].  It stands for the URL parser
    on targets made of a plain path and an optional query (no leading
    [//], no dot segments, no fragment). *)
Definition cutAtQuery (url : string) : URL :=
  match search url "?" with
  | Some (path, query) => {| pathname := path; searchParams := [(query, "")] |}
  | None => {| pathname := url; searchParams := [] |}
  end.

Definition exampleHost : Runtime :=
  {| hmac := fun _ key data _ _ => "+" ++ key ++ "/+" ++ data ++ "==";
     URL_parse := fun url _ => cutAtQuery url;
     JSON_parse_GitHub := fun body =>
       if String.eqb body "push" then inr (PushData (examplePush "octocat" 1 false))
       else if String.eqb body "ping" then inr (PingData {| zen := "Keep it simple"; hook_id := 1 |})
       else inl (SyntaxError "Unexpected end of JSON input");
     JSON_parse_Telegram := fun body =>
       if String.eqb body "setup" then
         inr {| update_id := 1;
                message := Some (exampleMessage (Finite 42) (Some "/setup@bot")
                                   (Some [{| entity_type := "bot_command"; offset := 0;
                                             entity_length := 10 |}]));
                callback_query := None |}
       else if String.eqb body "no-entities" then
         inr {| update_id := 2;
                message := Some (exampleMessage (Finite 42) (Some "hello") None);
                callback_query := None |}
       else if String.eqb body "no-text" then
         inr {| update_id := 3;
                message := Some (exampleMessage (Finite 42) None
                                   (Some [{| entity_type := "bot_command"; offset := 0;
                                             entity_length := 6 |}]));
                callback_query := None |}
       else inl (SyntaxError "Unexpected end of JSON input");
     fetch := fun _ => inr {| res_ok := true; res_text := "{}"; res_json := inr "{}" |};
     Object_prototype := fun _ => None |}.

Definition exampleBot : GitHubBot :=
  {| options := {| telegramToken := "123:abc"; telegramSecret := "hook-secret";
                   secret := "key"; baseURL := "https://bot.example.org";
                   listen := "127.0.0.1:8080" |} |}.

Definition exampleRequest (method url event body : string) : ServerRequest :=
  {| req_method := method; req_url := url;
     req_headers := fun name => if String.eqb name "X-GitHub-Event" then Some event else None;
     req_body := body |}.

(** The strings of a push payload that [formatPush] writes into its
    text. *)
Definition interpolated (push : GitHubEventPush) : list string :=
  let branch := replace (ref push) "refs/heads/" "" in
  [login (sender push); user_html_url (sender push); compare push; branch;
   replace (branches_url (repository push)) "{/branch}" ("/" ++ branch)] ++
  flat_map (fun commit => [slice (commit_id commit) 0 7;
                           commit_message commit;
                           username (author commit)]) (commits push) ++
  [full_name (repository push); repo_html_url (repository push)].

(** The two path shapes of the dispatch table, on the non-empty
    segments of a path. *)
Definition telegramShape (path : string) : bool :=
  match pathParts path with
  | [part0; _] => String.eqb part0 "telegramUpdate"
  | _ => false
  end.

Definition githubShape (path : string) : bool :=
  match pathParts path with
  | [part0; _; _] => String.eqb part0 "github"
  | _ => false
  end.

Definition badRequest : Response :=
  {| status := 400; headers := []; body := Plain "Bad Request" |}.

Definition notFound : Response :=
  {| status := 404; headers := []; body := Plain "Not Found" |}.

Definition methodNotAllowed : Response :=
  {| status := 405; headers := []; body := Plain "Method Not Allowed" |}.

Definition internalServerError : Response :=
  {| status := 500; headers := []; body := Plain "Unknown Internal Server Error" |}.

(** The call [updateMessageSetupAdvanced] issues for a message. *)
Definition editRequest {host : Runtime} (bot : GitHubBot) (msg : TelegramMessage)
  : FetchRequest :=
  {| fetch_url := "https://api.telegram.org/bot" ++ telegramToken (options bot) ++
                  "/editMessageText";
     fetch_method := "POST";
     fetch_headers := [("Content-Type", "application/json")];
     fetch_body :=
       {| method := None;
          chat_id := Some (chat_ident (chat msg));
          message_id := Some (msg_message_id msg);
          text := Some (setupText (generateWebhookURL bot (chat_ident (chat msg))) ++
                        advancedText);
          parse_mode := Some "Markdown";
          disable_web_page_preview := Some true;
          disable_notification := None; reply_markup := None; url := None |} |}.

(** [{method: "answerCallbackQuery"}] *)
Definition acknowledgment : TelegramActionSendMessage :=
  {| method := Some "answerCallbackQuery"; chat_id := None; message_id := None;
     text := None; parse_mode := None; disable_web_page_preview := None;
     disable_notification := None; reply_markup := None; url := None |}.

Definition exampleEntity (len : Z) : TelegramMessageEntity :=
  {| entity_type := "bot_command"; offset := 0; entity_length := len |}.

Definition exampleUpdate (m : option TelegramMessage) (q : option TelegramCallbackQuery)
  : TelegramUpdate :=
  {| update_id := 1; message := m; callback_query := q |}.

(** Whether a string begins with a decimal digit. *)
Definition startsWithDigit (s : string) : bool :=
  match s with
  | String c _ => match digitValue c with Some _ => true | None => false end
  | "" => false
  end.

(** A string without its sign, if it begins with one. *)
Definition unsigned (s : string) : string :=
  match s with
  | String c r => if Ascii.eqb c "-" || Ascii.eqb c "+" then r else s
  | "" => ""
  end.

(** A request made of its parts. *)
Definition request (method url : string) (headers : string -> option string)
    (body : string) : ServerRequest :=
  {| req_method := method; req_url := url; req_headers := headers; req_body := body |}.

(** A replacement text without [$] is inserted as it is. *)
Definition plain (rep : string) : Prop :=
  forall matched before after, GetSubstitution matched before after rep = rep.

(** The three replacements of [safeHMAC], each switched off once its
    character has been met. *)
Definition replaceUnless (met : bool) (c : ascii) (rep s : string) : string :=
  if met then s else replace s (String c "") rep.
Arguments replaceUnless : simpl never.

(** Whether a unit occurs in a string. *)
Fixpoint occurs (c : ascii) (s : string) : bool :=
  match s with
  | "" => false
  | String d s' => Ascii.eqb c d || occurs c s'
  end.

(** A host whose HMAC text has two [/]. *)
Definition slashHost : Runtime :=
  {| hmac := fun _ key data _ _ => key ++ "/" ++ data ++ "/x=";
     URL_parse := fun url _ => cutAtQuery url;
     JSON_parse_GitHub := JSON_parse_GitHub (Runtime := exampleHost);
     JSON_parse_Telegram := JSON_parse_Telegram (Runtime := exampleHost);
     fetch := fetch (Runtime := exampleHost);
     Object_prototype := fun _ => None |}.

(** The request [telegramApi] hands to [fetch] for an action and its
    data. *)
Definition apiRequest (bot : GitHubBot) (action : string)
    (data : TelegramActionSendMessage) : FetchRequest :=
  {| fetch_url := "https://api.telegram.org/bot" ++ telegramToken (options bot) ++
                  "/" ++ action;
     fetch_method := "POST";
     fetch_headers := [("Content-Type", "application/json")];
     fetch_body := data |}.

(** The outcome of [telegramApi] on the answer of [fetch]. *)
Definition apiOutcome (answer : exn + FetchResponse) : result string :=
  match answer with
  | inl e => Throw e
  | inr res =>
      if res_ok res then
        match res_json res with
        | inl e => Throw e
        | inr obj => Return obj
        end
      else Throw (Error ("Failure to perform API request: " ++ res_text res))
  end.

(** The data of the [sendMessage] call for an event. *)
Definition eventMessage (chatID : number) (quietly : bool) (text : option string)
  : TelegramActionSendMessage :=
  {| method := None; chat_id := Some chatID; message_id := None; text := text;
     parse_mode := Some "Markdown"; disable_web_page_preview := Some true;
     disable_notification := Some quietly; reply_markup := None; url := None |}.

(** How often a unit occurs in a string. *)
Fixpoint count (c : ascii) (s : string) : nat :=
  match s with
  | "" => 0
  | String d s' => (if Ascii.eqb c d then 1 else 0) + count c s'
  end.

(** A host on which the chat platform refuses every call. *)
Definition refusingHost : Runtime :=
  {| hmac := hmac (Runtime := exampleHost);
     URL_parse := URL_parse (Runtime := exampleHost);
     JSON_parse_GitHub := JSON_parse_GitHub (Runtime := exampleHost);
     JSON_parse_Telegram := JSON_parse_Telegram (Runtime := exampleHost);
     fetch := fun _ => inr {| res_ok := false; res_text := "Forbidden";
                              res_json := inl (SyntaxError "Unexpected token F") |};
     Object_prototype := fun _ => None |}.

(** The property key an event header stands for in [formatEventMessage]:
    an absent header is [null]. *)
Definition eventKey (event : option string) : string :=
  match event with
  | Some e => e
  | None => "null"
  end.

(** The reply to a command that is not [/setup]. *)
Definition unknownCommandReply (chatID : number) (command : string)
  : TelegramActionSendMessage :=
  {| method := Some "sendMessage"; chat_id := Some chatID; message_id := None;
     text := Some ("Oops, I don't understand your command " ++ command);
     parse_mode := None; disable_web_page_preview := None;
     disable_notification := None; reply_markup := None; url := None |}.

(** The reply to [/setup]. *)
Definition setupReply {host : Runtime} (bot : GitHubBot) (chatID : number)
  : TelegramActionSendMessage :=
  {| method := Some "sendMessage"; chat_id := Some chatID; message_id := None;
     text := Some (setupText (generateWebhookURL bot chatID));
     parse_mode := Some "Markdown"; disable_web_page_preview := Some true;
     disable_notification := None;
     reply_markup := Some {| inline_keyboard := [[advancedSetupButton]] |};
     url := None |}.

(** A world with one more line on the console. *)
Definition logged (w : World) (l : level) (line : string) : World :=
  {| calls := calls w; console := console w ++ [(l, line)] |}.

(** The answer to an update that asked for no reply. *)
Definition success : Response :=
  {| status := 200; headers := []; body := Plain "Success" |}.

(** The call [setup] makes to register the update webhook. *)
Definition webhookRegistration (bot : GitHubBot) : FetchRequest :=
  apiRequest bot "setWebhook"
    {| method := None; chat_id := None; message_id := None; text := None;
       parse_mode := None; disable_web_page_preview := None;
       disable_notification := None; reply_markup := None;
       url := Some (baseURL (options bot) ++ "/telegramUpdate/" ++
                    telegramSecret (options bot)) |}.

(** A call a request may cause: a [sendMessage] or an [editMessageText]
    of the bot. *)
Definition botCall (bot : GitHubBot) (call : FetchRequest) : Prop :=
  exists action data,
    (action = "sendMessage" \/ action = "editMessageText") /\
    call = apiRequest bot action data.

(** [w'] is [w] after at most one more call of the bot and some more
    lines on the console. *)
Definition grows (bot : GitHubBot) (w w' : World) : Prop :=
  exists (more : list FetchRequest) (lines : list (level * string)),
    calls w' = (calls w ++ more)%list /\
    console w' = (console w ++ lines)%list /\
    (List.length more <= 1)%nat /\
    Forall (botCall bot) more.

(** Whether every unit of a string is an ASCII character.  On such a
    string the 8-bit units are the units [slice] counts in the source. *)
Fixpoint isASCII (s : string) : bool :=
  match s with
  | "" => true
  | String c s' => Nat.ltb (nat_of_ascii c) 128 && isASCII s'
  end.

(** A bot whose update secret holds a [?]. *)
Definition questionBot : GitHubBot :=
  {| options := {| telegramToken := "123:abc"; telegramSecret := "a?b";
                   secret := "key"; baseURL := "https://bot.example.org";
                   listen := "127.0.0.1:8080" |} |}.

(** * Properties *)

(** ** JavaScript primitives on examples *)

Example parseInt10_examples :
  parseInt10 "42" = Finite 42 /\
  parseInt10 "42abc" = Finite 42 /\
  parseInt10 "-1001234567890" = Finite (-1001234567890) /\
  parseInt10 "+7" = Finite 7 /\
  parseInt10 "abc" = NaN /\
  parseInt10 "" = NaN /\
  parseInt10 "-" = NaN /\
  parseInt10 "9007199254740993" = Finite 9007199254740992.
Proof. repeat split. Qed.

Example round_to_double_examples :
  round_to_double (2 ^ 53 + 1) = Finite (2 ^ 53) /\
  round_to_double (2 ^ 53 + 3) = Finite (2 ^ 53 + 4) /\
  round_to_double (10 ^ 23) = Finite 99999999999999991611392 /\
  round_to_double (2 ^ 1024 - 2 ^ 970 - 1) = Finite ((2 ^ 53 - 1) * 2 ^ 971) /\
  round_to_double (2 ^ 1024 - 2 ^ 970) = PosInfinity.
Proof. repeat split; vm_compute; reflexivity. Qed.

Example NumberToString_examples :
  NumberToString (Finite 42) = "42" /\
  NumberToString (Finite (-1001234567890)) = "-1001234567890" /\
  NumberToString NaN = "NaN" /\
  NumberToString (Finite (2 ^ 64)) = "18446744073709552000" /\
  NumberToString (Finite (2 ^ 70)) = "1.1805916207174113e+21" /\
  NumberToString (round_to_double (10 ^ 23)) = "1e+23" /\
  NumberToString (Finite ((2 ^ 53 - 1) * 2 ^ 971)) = "1.7976931348623157e+308".
Proof. repeat split; vm_compute; reflexivity. Qed.

Example string_examples :
  replace "a+b+c" "+" "-" = "a-b+c" /\
  replace "url{/branch}" "{/branch}" "/a$$b$&" = "url/a$b{/branch}" /\
  split "/github//42/token" "/" = [""; "github"; ""; "42"; "token"] /\
  slice "/setup@bot rest" 0 10 = "/setup@bot" /\
  slice "abcdef" (-3) 100 = "def" /\
  hd "" (split "/setup@bot" "@") = "/setup".
Proof. repeat split. Qed.

(** ** Signer *)

(** C1: [verifyWebhookURL chatID token] is true exactly when [token] is
    the token signed for [chatID]: the signed token verifies, and every
    other token is refused. *)
Theorem verify_iff_signed {host : Runtime} (bot : GitHubBot) (chatID : number)
    (token : string) :
  (verifyWebhookURL bot chatID token = true <->
   token = safeHMAC bot (NumberToString chatID)) /\
  verifyWebhookURL bot chatID (safeHMAC bot (NumberToString chatID)) = true /\
  (token <> safeHMAC bot (NumberToString chatID) ->
   verifyWebhookURL bot chatID token = false).
Proof.
  unfold verifyWebhookURL. repeat split.
  - intros H. symmetry. now apply String.eqb_eq.
  - intros ->. apply String.eqb_refl.
  - apply String.eqb_refl.
  - intros H. apply String.eqb_neq. congruence.
Qed.

(** The signed token of chat 42 on the example host verifies, and a
    token that differs from it in its last unit does not. *)
Lemma verify_iff_signed_witness :
  verifyWebhookURL (host := exampleHost) exampleBot (Finite 42) "-key_+42=" = true /\
  verifyWebhookURL (host := exampleHost) exampleBot (Finite 42) "-key_+42" = false.
Proof.
  split.
  - apply (proj1 (verify_iff_signed (host := exampleHost) exampleBot (Finite 42) "-key_+42=")).
    reflexivity.
  - apply (proj2 (proj2 (verify_iff_signed (host := exampleHost) exampleBot (Finite 42)
                           "-key_+42"))).
    vm_compute. discriminate.
Defined.

Lemma prefix_empty (s : string) : String.prefix "" s = true.
Proof. now destruct s. Qed.

Lemma search_hit (c : ascii) (s : string) :
  search (String c s) (String c "") = Some ("", s).
Proof.
  simpl. destruct (ascii_dec c c) as [_|Hc]; [|congruence].
  now rewrite prefix_empty.
Qed.

Lemma search_miss (c d : ascii) (s : string) :
  c <> d ->
  search (String d s) (String c "") =
  match search s (String c "") with
  | Some (before, after) => Some (String d before, after)
  | None => None
  end.
Proof.
  intros Hcd. simpl. now destruct (ascii_dec c d) as [Heq|_]; [congruence|].
Qed.

Lemma replace_hit (c : ascii) (s rep : string) :
  plain rep -> replace (String c s) (String c "") rep = rep ++ s.
Proof.
  intros Hrep. unfold replace. rewrite search_hit. simpl. now rewrite Hrep.
Qed.

Lemma replace_miss (c d : ascii) (s rep : string) :
  plain rep -> c <> d ->
  replace (String d s) (String c "") rep = String d (replace s (String c "") rep).
Proof.
  intros Hrep Hcd. unfold replace. rewrite search_miss by assumption.
  destruct (search s (String c "")) as [[before after]|]; [|reflexivity].
  simpl. now rewrite !Hrep.
Qed.

Lemma plain_minus : plain "-". Proof. intros m b a. reflexivity. Qed.
Lemma plain_underscore : plain "_". Proof. intros m b a. reflexivity. Qed.
Lemma plain_nothing : plain "". Proof. intros m b a. reflexivity. Qed.

Lemma replaceUnless_hit (c : ascii) (rep s : string) :
  plain rep -> replaceUnless false c rep (String c s) = rep ++ replaceUnless true c rep s.
Proof. intros H. unfold replaceUnless. now apply replace_hit. Qed.

Lemma replaceUnless_miss (met : bool) (c d : ascii) (rep s : string) :
  plain rep -> c <> d ->
  replaceUnless met c rep (String d s) = String d (replaceUnless met c rep s).
Proof.
  intros H Hcd. destruct met; [reflexivity|]. unfold replaceUnless. now apply replace_miss.
Qed.

Lemma replaceUnless_met (c d : ascii) (rep s : string) :
  replaceUnless true c rep (String d s) = String d (replaceUnless true c rep s).
Proof. reflexivity. Qed.

Lemma three_replacements_one_pass (s : string) :
  forall plus slash equals,
    replaceUnless equals "=" ""
      (replaceUnless slash "/" "_" (replaceUnless plus "+" "-" s)) =
    firstOccurrenceOnly plus slash equals s.
Proof.
  induction s as [|c s IH]; intros plus slash equals.
  - destruct plus, slash, equals; reflexivity.
  - simpl firstOccurrenceOnly.
    destruct (Ascii.eqb_spec c "+") as [->|Hplus].
    { destruct plus; simpl.
      - rewrite replaceUnless_met.
        rewrite (replaceUnless_miss slash "/" "+") by (apply plain_underscore || discriminate).
        rewrite (replaceUnless_miss equals "=" "+") by (apply plain_nothing || discriminate).
        now rewrite IH.
      - rewrite replaceUnless_hit by apply plain_minus. simpl.
        rewrite (replaceUnless_miss slash "/" "-") by (apply plain_underscore || discriminate).
        rewrite (replaceUnless_miss equals "=" "-") by (apply plain_nothing || discriminate).
        now rewrite IH. }
    rewrite (replaceUnless_miss plus "+" c) by (apply plain_minus || congruence).
    destruct (Ascii.eqb_spec c "/") as [->|Hslash].
    { destruct slash; simpl.
      - rewrite replaceUnless_met.
        rewrite (replaceUnless_miss equals "=" "/") by (apply plain_nothing || discriminate).
        now rewrite IH.
      - rewrite replaceUnless_hit by apply plain_underscore. simpl.
        rewrite (replaceUnless_miss equals "=" "_") by (apply plain_nothing || discriminate).
        now rewrite IH. }
    rewrite (replaceUnless_miss slash "/" c) by (apply plain_underscore || congruence).
    destruct (Ascii.eqb_spec c "=") as [->|Hequals].
    { destruct equals; simpl.
      - rewrite replaceUnless_met. now rewrite IH.
      - rewrite replaceUnless_hit by apply plain_nothing. simpl. now rewrite IH. }
    rewrite (replaceUnless_miss equals "=" c) by (apply plain_nothing || congruence).
    simpl. now rewrite IH.
Qed.

Lemma safeHMAC_one_pass {host : Runtime} (bot : GitHubBot) (data : string) :
  safeHMAC bot data =
  firstOccurrenceOnly false false false
    (hmac "sha1" (secret (options bot)) data "utf8" "base64").
Proof. apply (three_replacements_one_pass _ false false false). Qed.

(** C2: the token [safeHMAC] produces is the base64 text of the HMAC
    of its argument with the first [+] turned into [-], the first [/]
    into [_] and the first [=] removed, every later occurrence of the
    three left as it is; the webhook URL of a chat carries that token for
    the text of the chat identifier. *)
Theorem safeHMAC_first_occurrence_only {host : Runtime} (bot : GitHubBot)
    (data : string) (chatID : number) :
  safeHMAC bot data =
  firstOccurrenceOnly false false false
    (hmac "sha1" (secret (options bot)) data "utf8" "base64") /\
  generateWebhookURL bot chatID =
  baseURL (options bot) ++ "/github/" ++ NumberToString chatID ++ "/" ++
  firstOccurrenceOnly false false false
    (hmac "sha1" (secret (options bot)) (NumberToString chatID) "utf8" "base64").
Proof.
  unfold generateWebhookURL. now rewrite !safeHMAC_one_pass.
Qed.

(** On the example host the later [+] and [=] of the HMAC text of chat
    42 are still in its token. *)
Example safeHMAC_example :
  hmac (Runtime := exampleHost) "sha1" "key" "42" "utf8" "base64" = "+key/+42==" /\
  safeHMAC (host := exampleHost) exampleBot (NumberToString (Finite 42)) = "-key_+42=".
Proof. split; reflexivity. Qed.

(** The text of an integer within the exact range is its decimal
    writing. *)
Lemma NumberToString_decimal (z : Z) :
  (Z.abs z <= 2 ^ 53)%Z -> NumberToString (Finite z) = decimal z.
Proof.
  intros H. unfold NumberToString.
  destruct (Z.leb_spec (Z.abs z) (2 ^ 53)); [reflexivity | lia].
Qed.

(** ** Event formatter *)

Lemma includes_unfold (s sub : string) :
  includes s sub =
  String.prefix sub s || match s with
                         | "" => false
                         | String _ s' => includes s' sub
                         end.
Proof. now destruct s. Qed.

Lemma includes_here (s sub : string) :
  String.prefix sub s = true -> includes s sub = true.
Proof. intros H. rewrite includes_unfold, H. reflexivity. Qed.

Lemma includes_skip_unit (c : ascii) (s sub : string) :
  includes s sub = true -> includes (String c s) sub = true.
Proof. intros H. simpl. rewrite H. apply orb_true_r. Qed.

Lemma includes_skip (a s sub : string) :
  includes s sub = true -> includes (a ++ s) sub = true.
Proof.
  intros H. induction a as [|c a IH]; [assumption|].
  simpl String.append. now apply includes_skip_unit.
Qed.

Lemma prefix_app (sub rest : string) : String.prefix sub (sub ++ rest) = true.
Proof.
  induction sub as [|c sub IH]; simpl.
  - apply prefix_empty.
  - now destruct (ascii_dec c c) as [_|Hc]; [|congruence].
Qed.

Lemma prefix_before_foreign (sub : string) :
  forall (a : string) (c : ascii) (b : string),
    occurs c sub = false ->
    String.prefix sub (a ++ String c b) = true -> String.prefix sub a = true.
Proof.
  induction sub as [|x sub IH]; intros a c b Hc H.
  - apply prefix_empty.
  - simpl in Hc. apply orb_false_elim in Hc as [Hx Hsub].
    destruct a as [|y a]; simpl in H |- *.
    + destruct (ascii_dec x c) as [->|_]; [|discriminate].
      now rewrite Ascii.eqb_refl in Hx.
    + destruct (ascii_dec x y) as [_|_]; [|discriminate].
      now apply (IH a c b).
Qed.

(** A text met in [a ++ c ++ b] that has no [c] in it lies within [a] or
    within [b]. *)
Lemma includes_before_foreign (sub a : string) (c : ascii) (b : string) :
  occurs c sub = false ->
  includes (a ++ String c b) sub = true ->
  includes a sub = true \/ includes b sub = true.
Proof.
  intros Hc. induction a as [|y a IH]; intros H.
  - change ("" ++ String c b) with (String c b) in H. simpl in H.
    apply orb_true_iff in H as [H|H]; [left|now right].
    apply includes_here. now apply (prefix_before_foreign sub "" c b).
  - change (String y a ++ String c b) with (String y (a ++ String c b)) in H.
    simpl in H. apply orb_true_iff in H as [H|H].
    + left. apply includes_here. now apply (prefix_before_foreign sub (String y a) c b).
    + destruct (IH H) as [Ha|Hb]; [left|now right].
      now apply includes_skip_unit.
Qed.

Lemma prefix_app_same (a b c : string) :
  String.prefix (a ++ b) (a ++ c) = String.prefix b c.
Proof.
  induction a as [|x a IH]; [reflexivity|].
  simpl. now destruct (ascii_dec x x) as [_|Hx]; [|congruence].
Qed.

Lemma append_assoc (a b c : string) : (a ++ b) ++ c = a ++ (b ++ c).
Proof. induction a as [|x a IH]; [reflexivity|]. simpl. now rewrite IH. Qed.

Ltac skip_to_occurrence :=
  repeat first
    [ apply includes_here; reflexivity
    | apply includes_skip_unit
    | apply includes_skip ].

Ltac found_in H :=
  simpl; rewrite H; simpl; rewrite ?orb_true_r; reflexivity.

Ltac split_at_foreign H :=
  simpl in H;
  first
    [ discriminate H
    | apply includes_before_foreign in H; [|reflexivity];
      destruct H as [H|H]; [found_in H|] ].

(** C3, amended: for a push of exactly one commit that was not forced,
    the text reads [1 new commit](compare) pushed to], in the singular
    and with nothing between the link and [pushed], and holds [force-]
    only where a string of the payload holds it; for a forced push of two
    commits the text holds [2 new commits] and [force-]. *)
Theorem push_text_count_and_force (push : GitHubEventPush) :
  (List.length (commits push) = 1%nat -> forced push = false ->
   includes (formatPush push)
     ("1 new commit](" ++ compare push ++ ") pushed to [`") = true /\
   (includes (formatPush push) "force-" = true ->
    existsb (fun s => includes s "force-") (interpolated push) = true)) /\
  (List.length (commits push) = 2%nat -> forced push = true ->
   includes (formatPush push) "2 new commits" = true /\
   includes (formatPush push) "force-" = true).
Proof.
  split.
  - intros Hone Hforced.
    destruct push as [ref0 sender0 repository0 commits0 compare0 forced0].
    simpl in Hone, Hforced. subst forced0.
    destruct commits0 as [|commit [|? ?]]; try discriminate Hone.
    unfold formatPush, interpolated, commitCount.
    cbn [commits ref sender repository compare forced List.length map flat_map].
    set (branch := replace ref0 "refs/heads/" "").
    set (link := replace (branches_url repository0) "{/branch}" ("/" ++ branch)).
    change (NumberToString (Finite (Z.of_nat 1))) with "1".
    change (Z.eqb (Z.of_nat 1) 1) with true. cbv iota.
    unfold LF, join, commitLine. cbn [String.concat].
    rewrite !append_assoc. cbn [String.append app].
    split.
    + apply includes_skip_unit. apply includes_skip.
      do 2 apply includes_skip_unit. apply includes_skip.
      do 5 apply includes_skip_unit.
      apply includes_here. simpl. rewrite prefix_app_same. simpl. apply prefix_empty.
    + intros H. repeat split_at_foreign H.
  - intros Htwo Hforced.
    destruct push as [ref0 sender0 repository0 commits0 compare0 forced0].
    simpl in Htwo, Hforced. subst forced0.
    destruct commits0 as [|commit1 [|commit2 [|? ?]]]; try discriminate Htwo.
    unfold formatPush, commitCount.
    cbn [commits ref sender repository compare forced List.length].
    change (NumberToString (Finite (Z.of_nat 2))) with "2".
    change (Z.eqb (Z.of_nat 2) 1) with false. cbv iota.
    unfold LF. cbn [String.append].
    split; skip_to_occurrence.
Qed.

(** A forced push of two commits and a quiet push of one, both by
    [octocat]. *)
Lemma push_text_count_and_force_witness :
  (includes (formatPush (examplePush "octocat" 1 false))
     ("1 new commit](" ++ compare (examplePush "octocat" 1 false) ++ ") pushed to [`") = true /\
   (includes (formatPush (examplePush "octocat" 1 false)) "force-" = true ->
    existsb (fun s => includes s "force-")
      (interpolated (examplePush "octocat" 1 false)) = true)) /\
  (includes (formatPush (examplePush "octocat" 2 true)) "2 new commits" = true /\
   includes (formatPush (examplePush "octocat" 2 true)) "force-" = true).
Proof.
  split.
  - apply (proj1 (push_text_count_and_force (examplePush "octocat" 1 false)));
      reflexivity.
  - apply (proj2 (push_text_count_and_force (examplePush "octocat" 2 true)));
      reflexivity.
Defined.

(** C3 as it was stated fails on a push of one commit, not forced, whose
    sender's login holds [force-]: the login is written into the text. *)
Lemma push_text_counterexample :
  List.length (commits (examplePush "force-of-nature" 1 false)) = 1%nat /\
  forced (examplePush "force-of-nature" 1 false) = false /\
  includes (formatPush (examplePush "force-of-nature" 1 false)) "force-" = true.
Proof. repeat split. Qed.

Example push_text_example :
  formatPush (examplePush "octocat" 1 false) =
  "[octocat](https://github.com/octocat): " ++ LF ++
  "[1 new commit](https://github.com/octocat/hello/compare/a...b) pushed to " ++
  "[`master`](https://github.com/octocat/hello/branches/master)" ++ LF ++
  "`0123456` Fix it - octocat" ++ LF ++
  "[_octocat/hello_](https://github.com/octocat/hello)".
Proof. reflexivity. Qed.

(** ** Bot core: binding verification *)

(** C4: with a token that is not the one signed for the chat,
    [githubEvent] throws [invalid: chatToken] and leaves the world as it
    was (no outbound call, nothing formatted); the message starts with
    [invalid], and a request that reaches [githubEvent] with such a token
    is answered 400 with no outbound call. *)
Theorem githubEvent_invalid_token {host : Runtime} (bot : GitHubBot) (chatID : number)
    (token : string) (params : Params) (event : option string) (data : GitHubEventData)
    (w : World) :
  token <> safeHMAC bot (NumberToString chatID) ->
  githubEvent bot chatID token params event data w =
    (Throw (Error "invalid: chatToken"), w) /\
  startsWith (message_of (Error "invalid: chatToken")) "invalid" = true /\
  (forall (req : ServerRequest) (segment : string),
     req_method req = "POST" ->
     pathParts (pathname (URL_parse (req_url req) "https://localhost")) =
       ["github"; segment; token] ->
     parseInt10 segment = chatID ->
     JSON_parse_GitHub (req_body req) = inr data ->
     main_handler bot req w = (Return badRequest, w)).
Proof.
  intros Hbad.
  assert (Hverify : verifyWebhookURL bot chatID token = false).
  { apply String.eqb_neq. congruence. }
  assert (Hevent : forall params event,
             githubEvent bot chatID token params event data w =
             (Throw (Error "invalid: chatToken"), w)).
  { intros. unfold githubEvent. now rewrite Hverify. }
  repeat split.
  - apply Hevent.
  - intros req segment Hmethod Hparts Hchat Hbody.
    unfold main_handler, try_catch, route. rewrite Hparts, Hmethod. simpl.
    unfold serveGitHubWebhook, bind. rewrite Hbody. simpl. rewrite Hchat, Hevent.
    reflexivity.
Qed.

(** Chat 42 with a token that was not signed for it, by a call and by a
    request. *)
Lemma githubEvent_invalid_token_witness :
  githubEvent (host := exampleHost) exampleBot (Finite 42) "forged"
    {| silent := false |} (Some "push") (PushData (examplePush "octocat" 1 false)) quiet =
    (Throw (Error "invalid: chatToken"), quiet) /\
  main_handler (host := exampleHost) exampleBot
    (exampleRequest "POST" "/github/42/forged" "push" "push") quiet =
    (Return badRequest, quiet).
Proof.
  pose proof (githubEvent_invalid_token (host := exampleHost) exampleBot (Finite 42)
                "forged" {| silent := false |} (Some "push")
                (PushData (examplePush "octocat" 1 false)) quiet) as H.
  destruct H as [Hcall [_ Hserve]].
  - vm_compute. discriminate.
  - split; [exact Hcall|].
    apply (Hserve (exampleRequest "POST" "/github/42/forged" "push" "push") "42");
      reflexivity.
Defined.

(** ** Router *)

Lemma route_not_post {host : Runtime} (bot : GitHubBot) (req : ServerRequest) (w : World) :
  req_method req <> "POST" ->
  route req bot w =
  (Return (let n := List.length
                      (pathParts (pathname (URL_parse (req_url req) "https://localhost"))) in
           if Nat.eqb n 2 || Nat.eqb n 3 then methodNotAllowed else notFound), w).
Proof.
  intros Hmethod. apply String.eqb_neq in Hmethod.
  unfold route. rewrite Hmethod.
  destruct (pathParts _) as [|p0 [|p1 [|p2 [|p3 rest]]]]; reflexivity.
Qed.

(** C5, amended: a POST request whose path has neither shape is answered
    404; a request that is not a POST is answered 405 when its path has
    one of the two shapes, and more generally whenever its path has two
    or three non-empty segments, and 404 otherwise. *)
Theorem route_status {host : Runtime} (bot : GitHubBot) (req : ServerRequest) (w : World) :
  let path := pathname (URL_parse (req_url req) "https://localhost") in
  (req_method req = "POST" ->
   telegramShape path = false -> githubShape path = false ->
   route req bot w = (Return notFound, w)) /\
  (req_method req <> "POST" ->
   telegramShape path = true \/ githubShape path = true ->
   route req bot w = (Return methodNotAllowed, w)) /\
  (req_method req <> "POST" ->
   route req bot w =
   (Return (if Nat.eqb (List.length (pathParts path)) 2 ||
               Nat.eqb (List.length (pathParts path)) 3
            then methodNotAllowed else notFound), w)).
Proof.
  intros path. repeat split.
  - intros Hmethod Htelegram Hgithub.
    unfold route, telegramShape, githubShape in *. fold path. rewrite Hmethod.
    destruct (pathParts path) as [|p0 [|p1 [|p2 [|p3 rest]]]]; try reflexivity.
    + simpl. now rewrite Htelegram.
    + simpl. now rewrite Hgithub.
  - intros Hmethod Hshape. rewrite route_not_post by assumption. fold path.
    unfold telegramShape, githubShape in Hshape.
    destruct (pathParts path) as [|p0 [|p1 [|p2 [|p3 rest]]]];
      try reflexivity; destruct Hshape; discriminate.
  - intros Hmethod. now rewrite route_not_post by assumption.
Qed.

(** A POST to a path of another shape, and a GET to each of the two
    shapes. *)
Lemma route_status_witness :
  route (host := exampleHost) (exampleRequest "POST" "/status/now" "" "") exampleBot quiet =
    (Return notFound, quiet) /\
  route (host := exampleHost) (exampleRequest "GET" "/telegramUpdate/hook-secret" "" "")
    exampleBot quiet = (Return methodNotAllowed, quiet) /\
  route (host := exampleHost) (exampleRequest "GET" "/github/42/token" "" "")
    exampleBot quiet = (Return methodNotAllowed, quiet).
Proof.
  split; [|split].
  - apply (proj1 (route_status (host := exampleHost) exampleBot
                    (exampleRequest "POST" "/status/now" "" "") quiet)); reflexivity.
  - apply (proj1 (proj2 (route_status (host := exampleHost) exampleBot
                    (exampleRequest "GET" "/telegramUpdate/hook-secret" "" "") quiet)));
      [discriminate | left; reflexivity].
  - apply (proj1 (proj2 (route_status (host := exampleHost) exampleBot
                    (exampleRequest "GET" "/github/42/token" "" "") quiet)));
      [discriminate | right; reflexivity].
Defined.

(** C5 as it was stated fails on [GET /foo/bar]: the path has neither
    shape, and the answer is 405, not 404. *)
Lemma route_status_counterexample :
  telegramShape "/foo/bar" = false /\
  githubShape "/foo/bar" = false /\
  route (host := exampleHost) (exampleRequest "GET" "/foo/bar" "" "") exampleBot quiet =
    (Return methodNotAllowed, quiet).
Proof. repeat split. Qed.

(** ** Command interpreter *)

Lemma substring_whole (s : string) : substring 0 (String.length s) s = s.
Proof. induction s as [|c s IH]; [reflexivity|]. simpl. now rewrite IH. Qed.

Lemma slice_whole (s : string) : slice s 0 (Z.of_nat (String.length s)) = s.
Proof.
  unfold slice. simpl.
  rewrite Z.min_l by lia. rewrite Z.min_id.
  destruct (Z.ltb_spec (Z.of_nat (String.length s)) 0) as [Hneg|_]; [lia|].
  rewrite Z.sub_0_r, Z.max_l by lia. rewrite Nat2Z.id. apply substring_whole.
Qed.

(** The reply to [/setup] in chat [chatID]. *)
Lemma setup_reply_fields {host : Runtime} (bot : GitHubBot) (chatID : number) :
  literal [key_method "sendMessage"; key_chat_id chatID; formatSetupMessage bot chatID;
           key_reply_markup {| inline_keyboard := [[advancedSetupButton]] |}] =
  {| method := Some "sendMessage";
     chat_id := Some chatID;
     message_id := None;
     text := Some (setupText (generateWebhookURL bot chatID));
     parse_mode := Some "Markdown";
     disable_web_page_preview := Some true;
     disable_notification := None;
     reply_markup := Some {| inline_keyboard := [[advancedSetupButton]] |};
     url := None |}.
Proof. reflexivity. Qed.

Lemma setupText_includes_url (url : string) : includes (setupText url) url = true.
Proof.
  unfold setupText, LF, DQ. cbn [String.append].
  repeat first
    [ apply includes_here; apply prefix_app
    | apply includes_skip_unit ].
Qed.

(** C6: an authenticated update whose message text is [/setup@botname],
    with one entity spanning it, is answered inline by a [sendMessage]
    for the chat whose text holds the webhook URL of that chat,
    [baseURL/github/chatID/token] with the token signed for the chat (so
    it verifies), and whose keyboard is one button with callback payload
    [updateMessageSetupAdvanced]; nothing is sent or logged. *)
Theorem setup_command_reply {host : Runtime} (bot : GitHubBot) (update : TelegramUpdate)
    (msg : TelegramMessage) (entity : TelegramMessageEntity) (botname : string)
    (w : World) :
  message update = Some msg ->
  msg_text msg = Some ("/setup@" ++ botname) ->
  entities msg = Some [entity] ->
  offset entity = 0%Z ->
  entity_length entity = Z.of_nat (String.length ("/setup@" ++ botname)) ->
  let chatID := chat_ident (chat msg) in
  let token := safeHMAC bot (NumberToString chatID) in
  let link := baseURL (options bot) ++ "/github/" ++ NumberToString chatID ++ "/" ++ token in
  telegramUpdate bot (telegramSecret (options bot)) update w =
    (Return (Some {| method := Some "sendMessage";
                     chat_id := Some chatID;
                     message_id := None;
                     text := Some (setupText link);
                     parse_mode := Some "Markdown";
                     disable_web_page_preview := Some true;
                     disable_notification := None;
                     reply_markup :=
                       Some {| inline_keyboard :=
                                 [[{| button_text := "Advanced Setup";
                                      callback_data := Some "updateMessageSetupAdvanced" |}]] |};
                     url := None |}), w) /\
  includes (setupText link) link = true /\
  link = generateWebhookURL bot chatID /\
  verifyWebhookURL bot chatID token = true.
Proof.
  intros Hmsg Htext Hentities Hoffset Hlength chatID token link.
  split; [|split; [|split]].
  - unfold telegramUpdate. rewrite String.eqb_refl. cbn [negb].
    rewrite Hmsg, Hentities, Htext, Hoffset, Hlength.
    rewrite Z.add_0_l, slice_whole.
    change (hd "" (split ("/setup@" ++ botname) "@")) with "/setup".
    cbn [String.eqb Ascii.eqb Bool.eqb andb]. 
    now rewrite setup_reply_fields.
  - apply setupText_includes_url.
  - reflexivity.
  - apply String.eqb_refl.
Qed.

(** [/setup@bot] in chat 42 on the example host. *)
Lemma setup_command_reply_witness :
  telegramUpdate (host := exampleHost) exampleBot "hook-secret"
    (exampleUpdate
       (Some (exampleMessage (Finite 42) (Some "/setup@bot") (Some [exampleEntity 10])))
       None) quiet =
    (Return (Some {| method := Some "sendMessage";
                     chat_id := Some (Finite 42);
                     message_id := None;
                     text := Some (setupText "https://bot.example.org/github/42/-key_+42=");
                     parse_mode := Some "Markdown";
                     disable_web_page_preview := Some true;
                     disable_notification := None;
                     reply_markup :=
                       Some {| inline_keyboard :=
                                 [[{| button_text := "Advanced Setup";
                                      callback_data := Some "updateMessageSetupAdvanced" |}]] |};
                     url := None |}), quiet) /\
  includes (setupText "https://bot.example.org/github/42/-key_+42=")
    "https://bot.example.org/github/42/-key_+42=" = true /\
  "https://bot.example.org/github/42/-key_+42=" =
    generateWebhookURL (host := exampleHost) exampleBot (Finite 42) /\
  verifyWebhookURL (host := exampleHost) exampleBot (Finite 42) "-key_+42=" = true.
Proof.
  apply (setup_command_reply (host := exampleHost) exampleBot
           (exampleUpdate
              (Some (exampleMessage (Finite 42) (Some "/setup@bot") (Some [exampleEntity 10])))
              None)
           (exampleMessage (Finite 42) (Some "/setup@bot") (Some [exampleEntity 10]))
           (exampleEntity 10) "bot" quiet); reflexivity.
Defined.

Lemma telegramApi_run {host : Runtime} (bot : GitHubBot) (action : string)
    (data : TelegramActionSendMessage) (w : World) :
  telegramApi bot action data w =
  (let request :=
     {| fetch_url := TELEGRAM_API_BASE_URL ++ telegramToken (options bot) ++ "/" ++ action;
        fetch_method := "POST";
        fetch_headers := [("Content-Type", "application/json")];
        fetch_body := data |} in
   (match fetch request with
    | inl e => Throw e
    | inr res =>
        if res_ok res then
          match res_json res with
          | inl e => Throw e
          | inr obj => Return obj
          end
        else Throw (Error ("Failure to perform API request: " ++ res_text res))
    end,
    {| calls := calls w ++ [request]; console := console w |})).
Proof.
  unfold telegramApi, bind. cbv zeta.
  destruct (fetch _) as [e|res]; [reflexivity|].
  destruct (res_ok res); [|reflexivity].
  destruct (res_json res); reflexivity.
Qed.

Lemma updateMessageSetupAdvanced_run {host : Runtime} (bot : GitHubBot)
    (msg : TelegramMessage) (w : World) :
  updateMessageSetupAdvanced bot msg w =
  (match fetch (editRequest bot msg) with
   | inl e => Throw e
   | inr res =>
       if res_ok res then
         match res_json res with
         | inl e => Throw e
         | inr _ => Return tt
         end
       else Throw (Error ("Failure to perform API request: " ++ res_text res))
   end,
   {| calls := calls w ++ [editRequest bot msg]; console := console w |}).
Proof.
  unfold updateMessageSetupAdvanced, bind. rewrite telegramApi_run. cbv zeta.
  change {| fetch_url := _; fetch_method := _; fetch_headers := _; fetch_body := _ |}
    with (editRequest bot msg).
  destruct (fetch (editRequest bot msg)) as [e|res]; [reflexivity|].
  destruct (res_ok res); [|reflexivity].
  destruct (res_json res); reflexivity.
Qed.

(** C7, amended: for an authenticated update with no message and a
    callback query with an attached message and data
    [updateMessageSetupAdvanced], [telegramUpdate] issues exactly one
    outbound call, the [editMessageText] for that message's chat and
    message_id, and when the call succeeds returns
    [{method: "answerCallbackQuery"}]; for any other data that is not
    empty it issues no call and returns the same acknowledgment; empty
    data is logged and ignored, with no reply. *)
Theorem callback_query_reply {host : Runtime} (bot : GitHubBot) (update : TelegramUpdate)
    (query : TelegramCallbackQuery) (msg : TelegramMessage) (action : string) (w : World) :
  message update = None ->
  callback_query update = Some query ->
  query_message query = Some msg ->
  query_data query = Some action ->
  let run := telegramUpdate bot (telegramSecret (options bot)) update w in
  (action = "updateMessageSetupAdvanced" ->
   snd run = {| calls := calls w ++ [editRequest bot msg]; console := console w |} /\
   (forall res obj,
      fetch (editRequest bot msg) = inr res -> res_ok res = true ->
      res_json res = inr obj ->
      fst run = Return (Some acknowledgment))) /\
  (action <> "updateMessageSetupAdvanced" -> action <> "" ->
   run = (Return (Some acknowledgment), w)) /\
  (action = "" ->
   run = (Return None,
          {| calls := calls w;
             console := console w ++ [(Warn, "ignored: Callback query mode is not known")] |})).
Proof.
  intros Hmsg Hquery Hattached Hdata run.
  assert (Hrun : run =
            if String.eqb action "" then
              (console_write Warn "ignored: Callback query mode is not known" ;;;
               ret None) w
            else
              ((if String.eqb action "updateMessageSetupAdvanced"
                then updateMessageSetupAdvanced bot msg else ret tt) ;;;
               ret (Some (literal [key_method "answerCallbackQuery"]))) w).
  { unfold run, telegramUpdate. rewrite String.eqb_refl. cbn [negb].
    rewrite Hmsg, Hquery, Hattached, Hdata. now destruct (String.eqb action ""). }
  split; [|split].
  - intros ->. rewrite Hrun. cbn [String.eqb Ascii.eqb Bool.eqb andb].
    unfold bind. rewrite updateMessageSetupAdvanced_run.
    split.
    + destruct (fetch (editRequest bot msg)) as [e|res]; [reflexivity|].
      destruct (res_ok res); [|reflexivity].
      destruct (res_json res); reflexivity.
    + intros res obj Hfetch Hok Hjson. now rewrite Hfetch, Hok, Hjson.
  - intros Hother Hnonempty. rewrite Hrun.
    apply String.eqb_neq in Hother. apply String.eqb_neq in Hnonempty.
    now rewrite Hother, Hnonempty.
  - intros ->. now rewrite Hrun.
Qed.

(** The advanced-setup button pressed under a message of chat 42, and
    another button. *)
Lemma callback_query_reply_witness :
  (snd (telegramUpdate (host := exampleHost) exampleBot "hook-secret"
          (exampleUpdate None (Some (exampleQuery (Some "updateMessageSetupAdvanced"))))
          quiet) =
     {| calls := [editRequest (host := exampleHost) exampleBot
                    (exampleMessage (Finite 42) None None)];
        console := [] |} /\
   fst (telegramUpdate (host := exampleHost) exampleBot "hook-secret"
          (exampleUpdate None (Some (exampleQuery (Some "updateMessageSetupAdvanced"))))
          quiet) = Return (Some acknowledgment)) /\
  telegramUpdate (host := exampleHost) exampleBot "hook-secret"
    (exampleUpdate None (Some (exampleQuery (Some "somethingElse")))) quiet =
    (Return (Some acknowledgment), quiet).
Proof.
  split.
  - destruct (proj1 (callback_query_reply (host := exampleHost) exampleBot
                       (exampleUpdate None
                          (Some (exampleQuery (Some "updateMessageSetupAdvanced"))))
                       (exampleQuery (Some "updateMessageSetupAdvanced"))
                       (exampleMessage (Finite 42) None None)
                       "updateMessageSetupAdvanced" quiet
                       eq_refl eq_refl eq_refl eq_refl) eq_refl) as [Hcalls Hreply].
    split; [exact Hcalls|].
    apply (Hreply {| res_ok := true; res_text := "{}"; res_json := inr "{}" |} "{}");
      reflexivity.
  - apply (proj1 (proj2 (callback_query_reply (host := exampleHost) exampleBot
                           (exampleUpdate None (Some (exampleQuery (Some "somethingElse"))))
                           (exampleQuery (Some "somethingElse"))
                           (exampleMessage (Finite 42) None None)
                           "somethingElse" quiet
                           eq_refl eq_refl eq_refl eq_refl))); discriminate.
Defined.

(** C7 as it was stated fails on a callback query whose data is the
    empty string: it is another data value, and no acknowledgment is
    returned. *)
Lemma callback_query_counterexample :
  String.eqb "" "updateMessageSetupAdvanced" = false /\
  telegramUpdate (host := exampleHost) exampleBot "hook-secret"
    (exampleUpdate None (Some (exampleQuery (Some "")))) quiet =
    (Return None,
     {| calls := [];
        console := [(Warn, "ignored: Callback query mode is not known")] |}).
Proof. split; reflexivity. Qed.

(** A message without entities is logged and ignored. *)
Lemma no_entities_ignored {host : Runtime} (bot : GitHubBot) (update : TelegramUpdate)
    (msg : TelegramMessage) (w : World) :
  message update = Some msg ->
  entities msg = None \/ entities msg = Some [] ->
  telegramUpdate bot (telegramSecret (options bot)) update w =
    (Return None,
     {| calls := calls w;
        console := console w ++
          [(Warn, "ignored: No entities found in Telegram message: [object Object]")] |}) /\
  respondIfReply None = {| status := 200; headers := []; body := Plain "Success" |}.
Proof.
  intros Hmsg Hentities. split; [|reflexivity].
  unfold telegramUpdate. rewrite String.eqb_refl, Hmsg. cbn [negb].
  now destruct Hentities as [-> | ->].
Qed.

(** A message with an entity and no text makes [telegramUpdate] throw:
    the text is sliced before it is looked at. *)
Lemma missing_text_throws {host : Runtime} (bot : GitHubBot) (update : TelegramUpdate)
    (msg : TelegramMessage) (entity : TelegramMessageEntity)
    (others : list TelegramMessageEntity) (w : World) :
  message update = Some msg ->
  entities msg = Some (entity :: others) ->
  msg_text msg = None ->
  telegramUpdate bot (telegramSecret (options bot)) update w =
    (Throw (undefinedProperty "slice"), w).
Proof.
  intros Hmsg Hentities Htext.
  unfold telegramUpdate. rewrite String.eqb_refl, Hmsg, Hentities, Htext. reflexivity.
Qed.

(** C8, on the code: an authenticated update whose message has one
    entity and no text is not ignored.  [telegramUpdate] throws a
    TypeError, and the server answers 500 and logs the error. *)
Theorem missing_text_failing_input :
  telegramUpdate (host := exampleHost) exampleBot "hook-secret"
    (exampleUpdate (Some (exampleMessage (Finite 42) None (Some [exampleEntity 6]))) None)
    quiet =
    (Throw (TypeError "Cannot read property 'slice' of undefined"), quiet) /\
  main_handler (host := exampleHost) exampleBot
    (exampleRequest "POST" "/telegramUpdate/hook-secret" "" "no-text") quiet =
    (Return internalServerError,
     {| calls := [];
        console := [(Err, "Cannot read property 'slice' of undefined")] |}).
Proof. split; reflexivity. Qed.

(** C9: when an update holds a message, [telegramUpdate] does what it
    does for the message alone: the callback query changes nothing, no
    outbound call is made, and a reply, if any, is a [sendMessage], never
    an [answerCallbackQuery]. *)
Theorem message_branch_first {host : Runtime} (bot : GitHubBot) (secret : string)
    (update : TelegramUpdate) (msg : TelegramMessage) (w : World) :
  message update = Some msg ->
  telegramUpdate bot secret update w =
    telegramUpdate bot secret
      {| update_id := update_id update; message := Some msg; callback_query := None |} w /\
  calls (snd (telegramUpdate bot secret update w)) = calls w /\
  (forall reply,
     fst (telegramUpdate bot secret update w) = Return (Some reply) ->
     method reply = Some "sendMessage").
Proof.
  intros Hmsg. unfold telegramUpdate. cbn [message]. rewrite Hmsg.
  destruct (negb (String.eqb secret (telegramSecret (options bot)))).
  { repeat split. intros reply H. discriminate H. }
  destruct (entities msg) as [[|entity others]|].
  - repeat split. intros reply H. discriminate H.
  - destruct (msg_text msg) as [text|].
    + destruct (String.eqb _ "/setup"); repeat split; intros reply H;
        injection H as <-; reflexivity.
    + repeat split. intros reply H. discriminate H.
  - repeat split. intros reply H. discriminate H.
Qed.

(** An update with both a [/setup] message and a pressed button. *)
Lemma message_branch_first_witness :
  telegramUpdate (host := exampleHost) exampleBot "hook-secret"
    (exampleUpdate
       (Some (exampleMessage (Finite 42) (Some "/setup@bot") (Some [exampleEntity 10])))
       (Some (exampleQuery (Some "updateMessageSetupAdvanced")))) quiet =
    telegramUpdate (host := exampleHost) exampleBot "hook-secret"
      (exampleUpdate
         (Some (exampleMessage (Finite 42) (Some "/setup@bot") (Some [exampleEntity 10])))
         None) quiet /\
  calls (snd (telegramUpdate (host := exampleHost) exampleBot "hook-secret"
    (exampleUpdate
       (Some (exampleMessage (Finite 42) (Some "/setup@bot") (Some [exampleEntity 10])))
       (Some (exampleQuery (Some "updateMessageSetupAdvanced")))) quiet)) = [].
Proof.
  destruct (message_branch_first (host := exampleHost) exampleBot "hook-secret"
              (exampleUpdate
                 (Some (exampleMessage (Finite 42) (Some "/setup@bot")
                          (Some [exampleEntity 10])))
                 (Some (exampleQuery (Some "updateMessageSetupAdvanced"))))
              (exampleMessage (Finite 42) (Some "/setup@bot") (Some [exampleEntity 10]))
              quiet eq_refl) as [Hsame [Hcalls _]].
  split; [exact Hsame | exact Hcalls].
Defined.

(** ** The chat identifier of a GitHub delivery *)

Lemma leadingDigits_suffix (s x : string) :
  startsWithDigit x = false ->
  forall acc, leadingDigits (s ++ x) acc = leadingDigits s acc.
Proof.
  intros Hx. induction s as [|c s IH]; intros acc.
  - destruct x as [|d x]; [reflexivity|].
    simpl in *. now destruct (digitValue d).
  - simpl. destruct (digitValue c); [apply IH | reflexivity].
Qed.

Lemma leadingDigits_started (s : string) :
  forall a, leadingDigits s (Some a) <> None.
Proof.
  induction s as [|c s IH]; intros a; simpl; [discriminate|].
  destruct (digitValue c); [apply IH | discriminate].
Qed.

Lemma leadingDigits_none (s : string) :
  leadingDigits s None = None <-> startsWithDigit s = false.
Proof.
  destruct s as [|c s]; simpl; [tauto|].
  destruct (digitValue c) as [d|]; [|tauto].
  split; [|discriminate]. intros H. now apply leadingDigits_started in H.
Qed.

Lemma trimStart_app (s x : string) :
  trimStart s <> "" -> trimStart (s ++ x) = trimStart s ++ x.
Proof.
  induction s as [|c s IH]; intros H; simpl in *; [congruence|].
  destruct (isWhiteSpace c); [now apply IH | reflexivity].
Qed.

Lemma round_to_double_not_NaN (z : Z) : round_to_double z <> NaN.
Proof.
  unfold round_to_double.
  repeat match goal with
         | |- context [if ?b then _ else _] => destruct b
         end; discriminate.
Qed.

Lemma parseInt10_unfold (s : string) :
  parseInt10 s =
  match leadingDigits (unsigned (trimStart s)) None with
  | None => NaN
  | Some m =>
      round_to_double
        (if match trimStart s with String c _ => Ascii.eqb c "-" | "" => false end
         then - m else m)%Z
  end.
Proof.
  unfold parseInt10, unsigned.
  destruct (trimStart s) as [|c r]; [reflexivity|].
  destruct (Ascii.eqb c "-"); [reflexivity|].
  now destruct (Ascii.eqb c "+").
Qed.

(** [parseInt(s, 10)] is NaN exactly when no digit follows the leading
    white space and the sign, if any. *)
Lemma parseInt10_NaN (s : string) :
  parseInt10 s = NaN <-> startsWithDigit (unsigned (trimStart s)) = false.
Proof.
  rewrite parseInt10_unfold, <- leadingDigits_none.
  destruct (leadingDigits _ None) as [m|]; [|tauto].
  split; [|discriminate]. intros H. now apply round_to_double_not_NaN in H.
Qed.

(** What follows the digits of a segment is not read. *)
Lemma parseInt10_suffix (s x : string) :
  parseInt10 s <> NaN -> startsWithDigit x = false ->
  parseInt10 (s ++ x) = parseInt10 s.
Proof.
  intros Hs Hx.
  assert (Htrim : trimStart s <> "").
  { intros Hempty. apply Hs. apply parseInt10_NaN. now rewrite Hempty. }
  rewrite (parseInt10_unfold (s ++ x)), (parseInt10_unfold s).
  rewrite (trimStart_app s x Htrim).
  destruct (trimStart s) as [|c r] eqn:Ht; [congruence|].
  assert (Hbody : leadingDigits (unsigned (String c r ++ x)) None =
                  leadingDigits (unsigned (String c r)) None).
  { change (String c r ++ x) with (String c (r ++ x)). unfold unsigned.
    destruct (Ascii.eqb c "-" || Ascii.eqb c "+").
    - now apply leadingDigits_suffix.
    - now apply (leadingDigits_suffix (String c r) x). }
  now rewrite Hbody.
Qed.

Lemma split_at_separator (a b : string) (sep : ascii) :
  occurs sep a = false -> split (a ++ String sep b) sep = a :: split b sep.
Proof.
  induction a as [|c a IH]; intros Ha.
  - simpl. now rewrite Ascii.eqb_refl.
  - simpl in Ha. apply orb_false_elim in Ha as [Hc Ha].
    simpl. rewrite Ascii.eqb_sym, Hc. now rewrite (IH Ha).
Qed.

Lemma split_no_separator (a : string) (sep : ascii) :
  occurs sep a = false -> split a sep = [a].
Proof.
  induction a as [|c a IH]; intros Ha; [reflexivity|].
  simpl in Ha. apply orb_false_elim in Ha as [Hc Ha].
  simpl. rewrite Ascii.eqb_sym, Hc. now rewrite (IH Ha).
Qed.

(** The segments of [/github/<a>/<t>]. *)
Lemma pathParts_github (a t : string) :
  occurs "/" a = false -> occurs "/" t = false -> a <> "" -> t <> "" ->
  pathParts ("/github/" ++ a ++ "/" ++ t) = ["github"; a; t].
Proof.
  intros Ha Ht Hane Htne. unfold pathParts.
  change ("/github/" ++ a ++ "/" ++ t)
    with ("" ++ String "/" ("github" ++ String "/" (a ++ String "/" t))).
  rewrite (split_at_separator "" _ "/") by reflexivity.
  rewrite (split_at_separator "github" _ "/") by reflexivity.
  rewrite (split_at_separator a t "/") by assumption.
  rewrite (split_no_separator t "/") by assumption.
  apply String.eqb_neq in Hane. apply String.eqb_neq in Htne.
  simpl. now rewrite Hane, Htne.
Qed.

Lemma occurs_app (c : ascii) (a b : string) :
  occurs c (a ++ b) = occurs c a || occurs c b.
Proof.
  induction a as [|d a IH]; [reflexivity|]. simpl. now rewrite IH, orb_assoc.
Qed.

(** C10, amended: for a POST to [/github/<s>/<t>], whatever the segment
    [s], the chat identifier handed to [githubEvent] is [parseInt(s, 10)];
    what follows the digits of the segment is not read, so a request to
    [/github/<s><x>/<t>], with [s] a segment that parses to a number and
    [x] not starting with a digit, is served as the request to
    [/github/<s>/<t>]; and the identifier handed to [githubEvent] is NaN
    exactly when no digit follows the leading white space of the segment
    and its sign, if it has one. *)
Theorem github_chat_identifier {host : Runtime} (bot : GitHubBot)
    (method : string) (headers : string -> option string) (body : string)
    (url : string) (query : list (string * string)) (s t : string) (w : World) :
  URL_parse url "https://localhost" =
    {| pathname := "/github/" ++ s ++ "/" ++ t; searchParams := query |} ->
  occurs "/" s = false -> occurs "/" t = false ->
  s <> "" -> t <> "" ->
  (method = "POST" ->
   route (request method url headers body) bot w =
   (data <- lift (JSON_parse_GitHub body) ;;
    reply <- githubEvent bot (parseInt10 s) t
               {| silent := URLSearchParams_has query "silent" |}
               (headers "X-GitHub-Event") data ;;
    ret (respondIfReply (Some reply))) w) /\
  (forall url' x,
     URL_parse url' "https://localhost" =
       {| pathname := "/github/" ++ (s ++ x) ++ "/" ++ t; searchParams := query |} ->
     occurs "/" x = false ->
     parseInt10 s <> NaN ->
     startsWithDigit x = false ->
     parseInt10 (s ++ x) = parseInt10 s /\
     main_handler bot (request method url' headers body) w =
     main_handler bot (request method url headers body) w) /\
  (parseInt10 s = NaN <-> startsWithDigit (unsigned (trimStart s)) = false) /\
  (method = "POST" ->
   startsWithDigit (unsigned (trimStart s)) = false ->
   route (request method url headers body) bot w =
   (data <- lift (JSON_parse_GitHub body) ;;
    reply <- githubEvent bot NaN t
               {| silent := URLSearchParams_has query "silent" |}
               (headers "X-GitHub-Event") data ;;
    ret (respondIfReply (Some reply))) w) /\
  (forall segment,
     parseInt10 segment = NaN <-> startsWithDigit (unsigned (trimStart segment)) = false).
Proof.
  intros Hurl Hs Ht Hsne Htne.
  assert (Hparts : pathParts ("/github/" ++ s ++ "/" ++ t) = ["github"; s; t]).
  { now apply pathParts_github. }
  assert (Hroute : method = "POST" ->
            route (request method url headers body) bot w =
            (data <- lift (JSON_parse_GitHub body) ;;
             reply <- githubEvent bot (parseInt10 s) t
                        {| silent := URLSearchParams_has query "silent" |}
                        (headers "X-GitHub-Event") data ;;
             ret (respondIfReply (Some reply))) w).
  { intros ->. unfold route, request. cbn [req_url req_method req_headers req_body].
    rewrite Hurl. cbn [pathname searchParams]. rewrite Hparts. reflexivity. }
  split; [exact Hroute|]. split; [|split; [|split]].
  - intros url' x Hurl' Hx Hnum Hsuffix.
    assert (Hparts' : pathParts ("/github/" ++ (s ++ x) ++ "/" ++ t) =
                      ["github"; s ++ x; t]).
    { apply pathParts_github; try assumption.
      - rewrite occurs_app, Hs, Hx. reflexivity.
      - destruct s; [congruence | discriminate]. }
    assert (Hsame : parseInt10 (s ++ x) = parseInt10 s).
    { now apply parseInt10_suffix. }
    split; [exact Hsame|].
    unfold main_handler, route, request. cbn [req_url req_method req_headers req_body].
    rewrite Hurl, Hurl'. cbn [pathname searchParams]. rewrite Hparts, Hparts'.
    unfold serveGitHubWebhook. cbn [fst snd req_body req_headers].
    now rewrite Hsame.
  - apply parseInt10_NaN.
  - intros Hmethod Hnodigit. apply parseInt10_NaN in Hnodigit.
    rewrite <- Hnodigit. now apply Hroute.
  - apply parseInt10_NaN.
Qed.

(** [/github/42abc/<token>] and [/github/42/<token>] with the token of
    chat 42. *)
Lemma github_chat_identifier_witness :
  parseInt10 ("42" ++ "abc") = parseInt10 "42" /\
  main_handler (host := exampleHost) exampleBot
    (exampleRequest "POST" "/github/42abc/-key_+42=" "push" "push") quiet =
  main_handler (host := exampleHost) exampleBot
    (exampleRequest "POST" "/github/42/-key_+42=" "push" "push") quiet.
Proof.
  destruct (github_chat_identifier (host := exampleHost) exampleBot "POST"
              (fun name => if String.eqb name "X-GitHub-Event" then Some "push" else None)
              "push" "/github/42/-key_+42=" [] "42" "-key_+42=" quiet
              eq_refl eq_refl eq_refl ltac:(discriminate) ltac:(discriminate))
    as [_ [Hsuffix _]].
  apply (Hsuffix "/github/42abc/-key_+42=" "abc"); try reflexivity. discriminate.
Defined.

(** A segment without a digit: the chat identifier handed on is NaN,
    whose token is the one signed for the text [NaN]. *)
Example github_chat_identifier_NaN_example :
  parseInt10 "abc" = NaN /\
  githubEvent (host := exampleHost) exampleBot (parseInt10 "abc") "-key_+NaN="
    {| silent := false |} (Some "ping")
    (PingData {| zen := "Keep it simple"; hook_id := 1 |}) quiet =
  (Return emptyObject,
   {| calls := [{| fetch_url := "https://api.telegram.org/bot123:abc/sendMessage";
                   fetch_method := "POST";
                   fetch_headers := [("Content-Type", "application/json")];
                   fetch_body :=
                     {| method := None; chat_id := Some NaN; message_id := None;
                        text := Some (formatPing {| zen := "Keep it simple"; hook_id := 1 |});
                        parse_mode := Some "Markdown";
                        disable_web_page_preview := Some true;
                        disable_notification := Some false;
                        reply_markup := None; url := None |} |}];
      console := [] |}).
Proof. split; reflexivity. Qed.

(** Both requests are answered 200 after one [sendMessage] to chat 42. *)
Example github_chat_identifier_example :
  let run := main_handler (host := exampleHost) exampleBot
               (exampleRequest "POST" "/github/42abc/-key_+42=" "push" "push") quiet in
  fst run = Return (respondIfReply (Some emptyObject)) /\
  map (fun call => (fetch_url call, chat_id (fetch_body call))) (calls (snd run)) =
    [("https://api.telegram.org/bot123:abc/sendMessage", Some (Finite 42))].
Proof. split; reflexivity. Qed.

(** C10 as it was stated fails on the segment [-42]: it has no leading
    digit, and the chat identifier is -42, not NaN; with the token of
    that chat the message goes to chat -42. *)
Lemma github_chat_identifier_counterexample :
  startsWithDigit "-42" = false /\
  parseInt10 "-42" = Finite (-42) /\
  map (fun call => chat_id (fetch_body call))
    (calls (snd (main_handler (host := exampleHost) exampleBot
                   (exampleRequest "POST" "/github/-42/-key_+-42=" "push" "push") quiet))) =
    [Some (Finite (-42))].
Proof. repeat split. Qed.

(** ** A webhook URL that the router does not know

    X1.  Where the HMAC text has a second [/], the token keeps it, the path of
    the URL that [/setup] hands out has four segments, and a delivery to
    it is answered 404 without reaching [githubEvent]. *)
Example webhook_url_with_slash_not_found :
  generateWebhookURL (host := slashHost) exampleBot (Finite 42) =
    "https://bot.example.org/github/42/key_42/x" /\
  verifyWebhookURL (host := slashHost) exampleBot (Finite 42) "key_42/x" = true /\
  main_handler (host := slashHost) exampleBot
    (exampleRequest "POST" "/github/42/key_42/x" "push" "push") quiet =
    (Return notFound, quiet).
Proof. repeat split. Qed.

(** * Further properties of the code *)

From Stdlib Require DecimalPos.

(** ** A chat identifier written into a URL and read back *)

Ltac read_digit :=
  cbn [NilEmpty.string_of_uint leadingDigits Pos.of_uint_acc Pos.of_uint];
  match goal with
  | |- context [digitValue ?c] =>
      let v := eval vm_compute in (digitValue c) in
      change (digitValue c) with v
  end;
  cbv iota beta.

Lemma leadingDigits_uint_acc (d : Decimal.uint) :
  forall acc : positive,
    leadingDigits (NilEmpty.string_of_uint d) (Some (Z.pos acc)) =
    Some (Z.pos (Pos.of_uint_acc d acc)).
Proof.
  induction d; intros acc; [reflexivity|..];
    read_digit; rewrite <- IHd; do 2 f_equal; lia.
Qed.

Lemma leadingDigits_uint_zero (d : Decimal.uint) :
  leadingDigits (NilEmpty.string_of_uint d) (Some 0%Z) = Some (Z.of_N (Pos.of_uint d)).
Proof.
  induction d; [reflexivity|..]; read_digit;
    first [ exact IHd
          | cbn [Z.of_N]; rewrite <- leadingDigits_uint_acc; reflexivity ].
Qed.

Lemma leadingDigits_uint (d : Decimal.uint) :
  d <> Decimal.Nil ->
  leadingDigits (NilEmpty.string_of_uint d) None = Some (Z.of_N (Pos.of_uint d)).
Proof.
  intros Hd. destruct d; [congruence|..]; read_digit;
    first [ apply leadingDigits_uint_zero
          | cbn [Z.of_N]; rewrite <- leadingDigits_uint_acc; reflexivity ].
Qed.

Lemma string_of_uint_nonnil (d : Decimal.uint) :
  d <> Decimal.Nil -> NilZero.string_of_uint d = NilEmpty.string_of_uint d.
Proof. destruct d; [congruence|..]; reflexivity. Qed.

Lemma decimal_pos (p : positive) :
  decimal (Z.pos p) = NilEmpty.string_of_uint (Pos.to_uint p).
Proof.
  unfold decimal. cbn [Z.to_int NilZero.string_of_int].
  apply string_of_uint_nonnil, DecimalPos.Unsigned.to_uint_nonnil.
Qed.

Lemma leadingDigits_decimal_pos (p : positive) :
  leadingDigits (decimal (Z.pos p)) None = Some (Z.pos p).
Proof.
  rewrite decimal_pos.
  rewrite leadingDigits_uint by apply DecimalPos.Unsigned.to_uint_nonnil.
  now rewrite DecimalPos.Unsigned.of_to.
Qed.

Lemma startsWithDigit_decimal_pos (p : positive) :
  startsWithDigit (decimal (Z.pos p)) = true.
Proof.
  rewrite decimal_pos.
  pose proof (DecimalPos.Unsigned.to_uint_nonnil p) as Hnil.
  destruct (Pos.to_uint p); [congruence|..]; reflexivity.
Qed.

Lemma digit_is_plain (c : ascii) (v : Z) :
  digitValue c = Some v ->
  isWhiteSpace c = false /\ Ascii.eqb c "-" = false /\ Ascii.eqb c "+" = false.
Proof.
  destruct c as [[] [] [] [] [] [] [] []]; vm_compute; intros H;
    first [discriminate H | repeat split].
Qed.

(** A string that begins with a digit has no white space or sign to
    skip. *)
Lemma parseInt10_digits (s : string) :
  startsWithDigit s = true ->
  parseInt10 s = match leadingDigits s None with
                 | Some m => round_to_double m
                 | None => NaN
                 end.
Proof.
  destruct s as [|c s]; [discriminate|]. cbn [startsWithDigit].
  destruct (digitValue c) as [v|] eqn:Hc; [intros _|discriminate].
  destruct (digit_is_plain c v Hc) as [Hw [Hm Hp]].
  unfold parseInt10. cbn [trimStart]. now rewrite Hw, Hm, Hp.
Qed.

Lemma round_to_double_exact (z : Z) :
  (Z.abs z <= 2 ^ 53)%Z -> round_to_double z = Finite z.
Proof.
  intros H.
  destruct (Z.eq_dec (Z.abs z) (2 ^ 53)) as [Heq|Hne].
  - destruct (Z.abs_spec z) as [[_ Ha]|[_ Ha]].
    + replace z with (2 ^ 53)%Z by lia. vm_compute. reflexivity.
    + replace z with (- 2 ^ 53)%Z by lia. vm_compute. reflexivity.
  - unfold round_to_double.
    destruct (Z.leb_spec (Z.log2 (Z.abs z) + 1) 53) as [_|Hbits]; [reflexivity|].
    exfalso.
    destruct (Z.eq_dec (Z.abs z) 0) as [H0|H0].
    + rewrite H0 in Hbits. simpl in Hbits. lia.
    + assert (Hlt : (Z.log2 (Z.abs z) < 53)%Z).
      { apply Z.log2_lt_pow2; lia. }
      lia.
Qed.

(** The decimal writing of an integer within the exact range reads back
    as the integer. *)
Lemma parseInt10_decimal (z : Z) :
  (Z.abs z <= 2 ^ 53)%Z -> parseInt10 (decimal z) = Finite z.
Proof.
  intros H. destruct z as [|p|p].
  - reflexivity.
  - rewrite parseInt10_digits by apply startsWithDigit_decimal_pos.
    rewrite leadingDigits_decimal_pos. now apply round_to_double_exact.
  - change (decimal (Z.neg p)) with (String "-" (decimal (Z.pos p))).
    unfold parseInt10. cbn [trimStart].
    change (isWhiteSpace "-") with false. cbv iota.
    change (Ascii.eqb "-" "-") with true. cbv iota beta.
    rewrite leadingDigits_decimal_pos. now apply round_to_double_exact.
Qed.

(** X2: the text [generateWebhookURL] writes for an integer chat
    identifier within the exact range of doubles is read back by
    [parseInt(_, 10)] as the same identifier, so two such identifiers
    never have the same text; beyond the range the text need not read
    back (1e21 prints in exponent notation and reads back as 1, and
    Infinity reads back as NaN). *)
Theorem chat_identifier_round_trip (z z' : Z) :
  ((Z.abs z <= 2 ^ 53)%Z -> parseInt10 (NumberToString (Finite z)) = Finite z) /\
  ((Z.abs z <= 2 ^ 53)%Z -> (Z.abs z' <= 2 ^ 53)%Z ->
   NumberToString (Finite z) = NumberToString (Finite z') -> z = z') /\
  parseInt10 (NumberToString (Finite (10 ^ 21))) = Finite 1 /\
  parseInt10 (NumberToString PosInfinity) = NaN.
Proof.
  split; [|split; [|split; vm_compute; reflexivity]].
  - intros H. rewrite NumberToString_decimal by assumption.
    now apply parseInt10_decimal.
  - intros H H' Heq. rewrite !NumberToString_decimal in Heq by assumption.
    apply (f_equal parseInt10) in Heq.
    rewrite !parseInt10_decimal in Heq by assumption. congruence.
Qed.

(** The identifier of a Telegram supergroup. *)
Lemma chat_identifier_round_trip_witness :
  parseInt10 (NumberToString (Finite (-1001234567890))) = Finite (-1001234567890).
Proof.
  apply (proj1 (chat_identifier_round_trip (-1001234567890) 0)). vm_compute. discriminate.
Defined.

(** ** A delivery to the URL handed out by [/setup] *)

Lemma occurs_uint (c : ascii) (d : Decimal.uint) :
  digitValue c = None -> occurs c (NilEmpty.string_of_uint d) = false.
Proof.
  intros Hc. induction d; [reflexivity|..];
    cbn [NilEmpty.string_of_uint occurs]; rewrite IHd, orb_false_r;
    apply Ascii.eqb_neq; intros ->; discriminate Hc.
Qed.

(** The decimal writing of an integer holds digits and a sign only. *)
Lemma occurs_decimal (c : ascii) (z : Z) :
  digitValue c = None -> c <> "-"%char -> occurs c (decimal z) = false.
Proof.
  intros Hc Hminus. destruct z as [|p|p].
  - cbn. rewrite orb_false_r. apply Ascii.eqb_neq. intros ->. discriminate Hc.
  - rewrite decimal_pos. now apply occurs_uint.
  - change (decimal (Z.neg p)) with (String "-" (decimal (Z.pos p))).
    cbn [occurs]. rewrite decimal_pos, occurs_uint by assumption.
    rewrite orb_false_r. now apply Ascii.eqb_neq.
Qed.

Lemma decimal_not_empty (z : Z) : decimal z <> "".
Proof.
  destruct z as [|p|p]; try discriminate.
  intros H. pose proof (startsWithDigit_decimal_pos p) as Hd.
  rewrite H in Hd. discriminate Hd.
Qed.

Lemma telegramApi_outcome {host : Runtime} (bot : GitHubBot) (action : string)
    (data : TelegramActionSendMessage) (w : World) :
  telegramApi bot action data w =
  (apiOutcome (fetch (apiRequest bot action data)),
   {| calls := calls w ++ [apiRequest bot action data]; console := console w |}).
Proof. rewrite telegramApi_run. reflexivity. Qed.

(** A formatted event message holds a text, asks for Markdown without
    link preview, and sets no other key. *)
Lemma formatEventMessage_keys {host : Runtime} (event : option string)
    (data : GitHubEventData) (msg : TelegramActionSendMessage) :
  formatEventMessage event data = inr msg ->
  exists t,
    msg = {| method := None; chat_id := None; message_id := None; text := Some t;
             parse_mode := Some "Markdown"; disable_web_page_preview := Some true;
             disable_notification := None; reply_markup := None; url := None |}.
Proof.
  unfold formatEventMessage.
  destruct (githubEventFormatters _) as [formatter|]; [|discriminate].
  destruct (formatter data) as [e|t]; [discriminate|].
  intros H. injection H as <-. now exists t.
Qed.

(** [githubEvent] with the token signed for the chat and an event it can
    format. *)
Lemma githubEvent_sends {host : Runtime} (bot : GitHubBot) (chatID : number)
    (params : Params) (event : option string) (data : GitHubEventData)
    (msg : TelegramActionSendMessage) (w : World) :
  formatEventMessage event data = inr msg ->
  let call := apiRequest bot "sendMessage" (eventMessage chatID (silent params) (text msg)) in
  githubEvent bot chatID (safeHMAC bot (NumberToString chatID)) params event data w =
  (match apiOutcome (fetch call) with
   | Return _ => Return emptyObject
   | Throw e => Throw e
   end,
   {| calls := calls w ++ [call]; console := console w |}).
Proof.
  intros Hmsg call. unfold githubEvent, verifyWebhookURL.
  rewrite String.eqb_refl. cbn [negb]. unfold bind. rewrite Hmsg. cbn [lift ret].
  destruct (formatEventMessage_keys _ _ _ Hmsg) as [t ->].
  rewrite telegramApi_outcome.
  change (literal [key_chat_id chatID; key_disable_notification (silent params);
                   {| method := None; chat_id := None; message_id := None;
                      text := Some t; parse_mode := Some "Markdown";
                      disable_web_page_preview := Some true;
                      disable_notification := None; reply_markup := None;
                      url := None |}])
    with (eventMessage chatID (silent params) (Some t)).
  subst call. cbn [text]. now destruct (apiOutcome (fetch _)).
Qed.

(** X3: a POST to the path of the URL [generateWebhookURL] gives for an
    integer chat identifier (within the exact range, with a token free
    of [/]), with a body that parses and an event that formats, issues
    exactly one [sendMessage] call for that chat, silent exactly when the
    query has a [silent] key, whatever the answer to the call; when the
    call has succeeded the request is answered 200 with the JSON of an
    empty object and nothing is logged. *)
Theorem generated_url_delivers {host : Runtime} (bot : GitHubBot) (z : Z)
    (req : ServerRequest) (data : GitHubEventData) (msg : TelegramActionSendMessage)
    (w : World) :
  let chatID := Finite z in
  let token := safeHMAC bot (NumberToString chatID) in
  let url := URL_parse (req_url req) "https://localhost" in
  let call := apiRequest bot "sendMessage"
                (eventMessage chatID (URLSearchParams_has (searchParams url) "silent")
                   (text msg)) in
  (Z.abs z <= 2 ^ 53)%Z ->
  occurs "/" token = false -> token <> "" ->
  req_method req = "POST" ->
  pathname url = "/github/" ++ NumberToString chatID ++ "/" ++ token ->
  JSON_parse_GitHub (req_body req) = inr data ->
  formatEventMessage (req_headers req "X-GitHub-Event") data = inr msg ->
  calls (snd (main_handler bot req w)) = (calls w ++ [call])%list /\
  (forall res obj,
     fetch call = inr res -> res_ok res = true -> res_json res = inr obj ->
     main_handler bot req w =
     (Return {| status := 200;
                headers := [("Content-Type", "application/json")];
                body := Json emptyObject |},
      {| calls := calls w ++ [call]; console := console w |})).
Proof.
  intros chatID token url call Hz Hslash Hne Hmethod Hpath Hbody Hmsg.
  assert (Hid : NumberToString chatID = decimal z) by now apply NumberToString_decimal.
  assert (Hparts : pathParts (pathname url) = ["github"; decimal z; token]).
  { rewrite Hpath, Hid. apply pathParts_github; try assumption.
    - apply occurs_decimal; [reflexivity | discriminate].
    - apply decimal_not_empty. }
  assert (Hparse : parseInt10 (decimal z) = chatID).
  { now apply parseInt10_decimal. }
  assert (Hrun : main_handler bot req w =
            match apiOutcome (fetch call) with
            | Return _ =>
                (Return {| status := 200;
                           headers := [("Content-Type", "application/json")];
                           body := Json emptyObject |},
                 {| calls := calls w ++ [call]; console := console w |})
            | Throw e =>
                (if startsWith (message_of e) "invalid" then serveBadRequest
                 else
                   response <- serveInternalServerError ;;
                   console_write Err (message_of e) ;;;
                   ret response)
                  {| calls := calls w ++ [call]; console := console w |}
            end).
  { unfold main_handler, try_catch, route. fold url. rewrite Hparts, Hmethod.
    cbn [String.eqb Ascii.eqb Bool.eqb andb negb].
    unfold serveGitHubWebhook. unfold bind at 1 2. cbn [fst snd]. rewrite Hbody.
    cbn [lift ret]. rewrite Hparse. fold token.
    unfold token. rewrite (githubEvent_sends bot chatID _ _ _ msg w Hmsg).
    cbn [silent]. fold call. now destruct (apiOutcome (fetch call)). }
  split.
  - rewrite Hrun. destruct (apiOutcome (fetch call)) as [obj|e]; [reflexivity|].
    now destruct (startsWith (message_of e) "invalid").
  - intros res obj Hfetch Hok Hjson. rewrite Hrun, Hfetch. cbn [apiOutcome].
    now rewrite Hok, Hjson.
Qed.

(** A push for chat 42 to its signed URL, with the [silent] flag, on a
    host that accepts the call and on one that refuses it. *)
Lemma generated_url_delivers_witness :
  main_handler (host := exampleHost) exampleBot
    (exampleRequest "POST" "/github/42/-key_+42=?silent" "push" "push") quiet =
  (Return {| status := 200;
             headers := [("Content-Type", "application/json")];
             body := Json emptyObject |},
   {| calls := [apiRequest exampleBot "sendMessage"
                  (eventMessage (Finite 42) true
                     (Some (formatPush (examplePush "octocat" 1 false))))];
      console := [] |}) /\
  calls (snd (main_handler (host := refusingHost) exampleBot
                (exampleRequest "POST" "/github/42/-key_+42=?silent" "push" "push") quiet)) =
  [apiRequest exampleBot "sendMessage"
     (eventMessage (Finite 42) true
        (Some (formatPush (examplePush "octocat" 1 false))))].
Proof.
  split.
  - apply (proj2 (generated_url_delivers (host := exampleHost) exampleBot 42
             (exampleRequest "POST" "/github/42/-key_+42=?silent" "push" "push")
             (PushData (examplePush "octocat" 1 false))
             {| method := None; chat_id := None; message_id := None;
                text := Some (formatPush (examplePush "octocat" 1 false));
                parse_mode := Some "Markdown"; disable_web_page_preview := Some true;
                disable_notification := None; reply_markup := None; url := None |}
             quiet ltac:(vm_compute; discriminate) eq_refl ltac:(discriminate)
             eq_refl eq_refl eq_refl eq_refl)
             {| res_ok := true; res_text := "{}"; res_json := inr "{}" |} "{}");
      reflexivity.
  - apply (proj1 (generated_url_delivers (host := refusingHost) exampleBot 42
             (exampleRequest "POST" "/github/42/-key_+42=?silent" "push" "push")
             (PushData (examplePush "octocat" 1 false))
             {| method := None; chat_id := None; message_id := None;
                text := Some (formatPush (examplePush "octocat" 1 false));
                parse_mode := Some "Markdown"; disable_web_page_preview := Some true;
                disable_notification := None; reply_markup := None; url := None |}
             quiet ltac:(vm_compute; discriminate) eq_refl ltac:(discriminate)
             eq_refl eq_refl eq_refl eq_refl)).
Defined.

(** ** Failures behind a valid token *)

(** A delivery that reaches [githubEvent] with the signed token. *)
Lemma signed_delivery {host : Runtime} (bot : GitHubBot) (req : ServerRequest)
    (segment : string) (chatID : number) (data : GitHubEventData) (w : World) :
  req_method req = "POST" ->
  pathParts (pathname (URL_parse (req_url req) "https://localhost")) =
    ["github"; segment; safeHMAC bot (NumberToString chatID)] ->
  parseInt10 segment = chatID ->
  JSON_parse_GitHub (req_body req) = inr data ->
  route req bot w =
  (reply <- githubEvent bot chatID (safeHMAC bot (NumberToString chatID))
              {| silent := URLSearchParams_has
                             (searchParams (URL_parse (req_url req) "https://localhost"))
                             "silent" |}
              (req_headers req "X-GitHub-Event") data ;;
   ret (respondIfReply (Some reply))) w.
Proof.
  intros Hmethod Hparts Hchat Hbody.
  unfold route. rewrite Hparts, Hmethod.
  cbn [String.eqb Ascii.eqb Bool.eqb andb negb].
  unfold serveGitHubWebhook. cbn [fst snd]. rewrite Hchat.
  unfold bind at 1. now rewrite Hbody.
Qed.

Lemma startsWith_invalid (rest : string) : startsWith ("invalid" ++ rest) "invalid" = true.
Proof. apply prefix_app. Qed.

(** X4: with the token signed for the chat, an event whose name is
    neither [ping] nor [push] nor a member every object inherits (an
    absent header counts as the name [null]) makes [githubEvent] throw
    [invalid: Event type "<name>" is not known] before any outbound
    call, and the delivery is answered 400. *)
Theorem unknown_event_rejected {host : Runtime} (bot : GitHubBot) (chatID : number)
    (params : Params) (event : option string) (data : GitHubEventData) (w : World) :
  eventKey event <> "ping" -> eventKey event <> "push" ->
  Object_prototype (eventKey event) = None ->
  githubEvent bot chatID (safeHMAC bot (NumberToString chatID)) params event data w =
    (Throw (Error ("invalid: Event type " ++ DQ ++ eventKey event ++ DQ ++ " is not known")),
     w) /\
  (forall (req : ServerRequest) (segment : string),
     req_method req = "POST" ->
     pathParts (pathname (URL_parse (req_url req) "https://localhost")) =
       ["github"; segment; safeHMAC bot (NumberToString chatID)] ->
     parseInt10 segment = chatID ->
     JSON_parse_GitHub (req_body req) = inr data ->
     req_headers req "X-GitHub-Event" = event ->
     main_handler bot req w = (Return badRequest, w)).
Proof.
  intros Hping Hpush Hinherited.
  assert (Hevent : forall params,
             githubEvent bot chatID (safeHMAC bot (NumberToString chatID)) params event
               data w =
             (Throw (Error ("invalid: Event type " ++ DQ ++ eventKey event ++ DQ ++
                            " is not known")), w)).
  { intros params'. unfold githubEvent, verifyWebhookURL.
    rewrite String.eqb_refl. cbn [negb]. unfold bind, formatEventMessage.
    fold (eventKey event). unfold githubEventFormatters.
    apply String.eqb_neq in Hping. apply String.eqb_neq in Hpush.
    now rewrite Hping, Hpush, Hinherited. }
  split; [apply Hevent|].
  intros req segment Hmethod Hparts Hchat Hbody Hheader.
  unfold main_handler, try_catch.
  rewrite (signed_delivery bot req segment chatID data w) by assumption.
  unfold bind at 1. rewrite Hheader, Hevent. reflexivity.
Qed.

(** An [issues] event, and a delivery without the event header. *)
Lemma unknown_event_rejected_witness :
  main_handler (host := exampleHost) exampleBot
    (exampleRequest "POST" "/github/42/-key_+42=" "issues" "push") quiet =
    (Return badRequest, quiet) /\
  githubEvent (host := exampleHost) exampleBot (Finite 42) "-key_+42="
    {| silent := false |} None (PushData (examplePush "octocat" 1 false)) quiet =
    (Throw (Error ("invalid: Event type " ++ DQ ++ "null" ++ DQ ++ " is not known")), quiet).
Proof.
  split.
  - apply (proj2 (unknown_event_rejected (host := exampleHost) exampleBot (Finite 42)
                    {| silent := false |} (Some "issues")
                    (PushData (examplePush "octocat" 1 false)) quiet
                    ltac:(discriminate) ltac:(discriminate) eq_refl)
             (exampleRequest "POST" "/github/42/-key_+42=" "issues" "push") "42");
      reflexivity.
  - apply (proj1 (unknown_event_rejected (host := exampleHost) exampleBot (Finite 42)
                    {| silent := false |} None
                    (PushData (examplePush "octocat" 1 false)) quiet
                    ltac:(discriminate) ltac:(discriminate) eq_refl)).
Defined.

(** X5: when the chat platform answers the [sendMessage] call of a
    delivery with a status that is not a success, the call has been made
    once, the failure with the platform's text is written to the console,
    and the delivery is answered 500 with the fixed body, which holds
    nothing of the platform's text. *)
Theorem upstream_failure_is_500 {host : Runtime} (bot : GitHubBot) (req : ServerRequest)
    (segment : string) (chatID : number) (data : GitHubEventData)
    (msg : TelegramActionSendMessage) (res : FetchResponse) (w : World) :
  let url := URL_parse (req_url req) "https://localhost" in
  let call := apiRequest bot "sendMessage"
                (eventMessage chatID (URLSearchParams_has (searchParams url) "silent")
                   (text msg)) in
  req_method req = "POST" ->
  pathParts (pathname url) = ["github"; segment; safeHMAC bot (NumberToString chatID)] ->
  parseInt10 segment = chatID ->
  JSON_parse_GitHub (req_body req) = inr data ->
  formatEventMessage (req_headers req "X-GitHub-Event") data = inr msg ->
  fetch call = inr res -> res_ok res = false ->
  main_handler bot req w =
  (Return {| status := 500; headers := [];
             body := Plain "Unknown Internal Server Error" |},
   {| calls := calls w ++ [call];
      console := console w ++
                 [(Err, "Failure to perform API request: " ++ res_text res)] |}).
Proof.
  intros url call Hmethod Hparts Hchat Hbody Hmsg Hfetch Hok.
  unfold main_handler, try_catch.
  rewrite (signed_delivery bot req segment chatID data w) by assumption.
  unfold bind at 1.
  rewrite (githubEvent_sends bot chatID _ _ _ msg w Hmsg).
  cbn [silent]. fold url. fold call. rewrite Hfetch. cbn [apiOutcome]. rewrite Hok.
  reflexivity.
Qed.

(** A push for chat 42 while the platform refuses the bot. *)
Lemma upstream_failure_is_500_witness :
  main_handler (host := refusingHost) exampleBot
    (exampleRequest "POST" "/github/42/-key_+42=" "push" "push") quiet =
  (Return {| status := 500; headers := [];
             body := Plain "Unknown Internal Server Error" |},
   {| calls := [apiRequest exampleBot "sendMessage"
                  (eventMessage (Finite 42) false
                     (Some (formatPush (examplePush "octocat" 1 false))))];
      console := [(Err, "Failure to perform API request: Forbidden")] |}).
Proof.
  apply (upstream_failure_is_500 (host := refusingHost) exampleBot
           (exampleRequest "POST" "/github/42/-key_+42=" "push" "push")
           "42" (Finite 42) (PushData (examplePush "octocat" 1 false))
           {| method := None; chat_id := None; message_id := None;
              text := Some (formatPush (examplePush "octocat" 1 false));
              parse_mode := Some "Markdown"; disable_web_page_preview := Some true;
              disable_notification := None; reply_markup := None; url := None |}
           {| res_ok := false; res_text := "Forbidden";
              res_json := inl (SyntaxError "Unexpected token F") |} quiet);
    reflexivity.
Defined.

(** ** Path segments *)

Lemma split_not_empty (s : string) (sep : ascii) : split s sep <> [].
Proof.
  destruct s as [|c s]; [discriminate|]. simpl.
  destruct (Ascii.eqb c sep); [discriminate|].
  destruct (split s sep); discriminate.
Qed.

Lemma split_app (a b : string) (sep : ascii) :
  split (a ++ String sep b) sep = (split a sep ++ split b sep)%list.
Proof.
  induction a as [|c a IH].
  - simpl. now rewrite Ascii.eqb_refl.
  - change (String c a ++ String sep b) with (String c (a ++ String sep b)).
    cbn [split]. rewrite IH.
    destruct (Ascii.eqb c sep); [reflexivity|].
    pose proof (split_not_empty a sep) as Hne.
    destruct (split a sep); [congruence | reflexivity].
Qed.

Lemma split_pieces (s : string) (sep : ascii) :
  forall piece, In piece (split s sep) -> occurs sep piece = false.
Proof.
  induction s as [|c s IH]; intros piece Hin.
  - destruct Hin as [<-|[]]. reflexivity.
  - cbn [split] in Hin. destruct (Ascii.eqb c sep) eqn:Hc.
    + destruct Hin as [<-|Hin]; [reflexivity | now apply IH].
    + pose proof (split_not_empty s sep) as Hne.
      destruct (split s sep) as [|p ps]; [congruence|].
      destruct Hin as [<-|Hin].
      * cbn [occurs]. rewrite Ascii.eqb_sym, Hc. apply IH. now left.
      * apply IH. now right.
Qed.

Lemma pathParts_app (a b : string) :
  pathParts (a ++ "/" ++ b) = (pathParts a ++ pathParts b)%list.
Proof.
  unfold pathParts. change (a ++ "/" ++ b) with (a ++ String "/" b).
  now rewrite split_app, filter_app.
Qed.

(** X6: the segments the router works with are never empty and never
    hold a [/], and the segments of two paths joined by a [/] are those
    of the first followed by those of the second, so that repeated,
    leading and trailing slashes change nothing. *)
Theorem pathParts_segments (a b : string) :
  (forall part, In part (pathParts a) -> part <> "" /\ occurs "/" part = false) /\
  pathParts (a ++ "/" ++ b) = (pathParts a ++ pathParts b)%list /\
  pathParts ("/" ++ a) = pathParts a /\
  pathParts (a ++ "/") = pathParts a.
Proof.
  unfold pathParts. repeat split.
  - apply filter_In in H as [_ H]. apply negb_true_iff in H.
    now apply String.eqb_neq in H.
  - apply filter_In in H as [H _]. now apply (split_pieces a "/").
  - apply pathParts_app.
  - change (a ++ "/") with (a ++ String "/" "").
    rewrite split_app, filter_app. cbn. apply app_nil_r.
Qed.

Example pathParts_example :
  pathParts "//github///42/token/" = ["github"; "42"; "token"].
Proof. reflexivity. Qed.

(** ** A token that keeps a [/] *)

Lemma occurs_firstOccurrenceOnly_slash (s : string) :
  forall plus slash equals,
    occurs "/" (firstOccurrenceOnly plus slash equals s) =
    Nat.leb (if slash then 1 else 2) (count "/" s).
Proof.
  induction s as [|c s IH]; intros plus slash equals.
  - now destruct slash.
  - cbn [firstOccurrenceOnly count].
    destruct (Ascii.eqb_spec c "+") as [->|Hplus].
    { destruct plus; cbn [andb negb occurs Ascii.eqb Bool.eqb orb]; rewrite IH;
        reflexivity. }
    destruct (Ascii.eqb_spec c "/") as [->|Hslash].
    { destruct slash; cbn [andb negb occurs Ascii.eqb Bool.eqb orb].
      - reflexivity.
      - rewrite IH. reflexivity. }
    assert (Hc : Ascii.eqb "/" c = false) by (apply Ascii.eqb_neq; congruence).
    rewrite Hc.
    destruct (Ascii.eqb_spec c "=") as [->|Hequals].
    { destruct equals; cbn [andb negb occurs Ascii.eqb Bool.eqb orb]; rewrite IH;
        reflexivity. }
    cbn [andb occurs]. rewrite Hc, IH. reflexivity.
Qed.

(** X7: the token [safeHMAC] produces holds a [/] exactly when the
    base64 text of the HMAC holds two or more. *)
Theorem token_keeps_second_slash {host : Runtime} (bot : GitHubBot) (data : string) :
  occurs "/" (safeHMAC bot data) =
  Nat.leb 2 (count "/" (hmac "sha1" (secret (options bot)) data "utf8" "base64")).
Proof.
  rewrite safeHMAC_one_pass. apply occurs_firstOccurrenceOnly_slash.
Qed.

Lemma main_handler_of_route {host : Runtime} (bot : GitHubBot) (req : ServerRequest)
    (w w' : World) (resp : Response) :
  route req bot w = (Return resp, w') -> main_handler bot req w = (Return resp, w').
Proof. intros H. unfold main_handler, try_catch. now rewrite H. Qed.

(** What the request callback makes of a thrown exception. *)
Lemma main_handler_of_throw {host : Runtime} (bot : GitHubBot) (req : ServerRequest)
    (w w' : World) (e : exn) :
  route req bot w = (Throw e, w') ->
  exists resp w'',
    main_handler bot req w = (Return resp, w'') /\
    calls w'' = calls w' /\
    (status resp = 400 \/ status resp = 500)%Z.
Proof.
  intros H. unfold main_handler, try_catch. rewrite H.
  destruct (startsWith (message_of e) "invalid").
  - exists badRequest, w'. repeat split. now left.
  - eexists internalServerError, _. repeat split. now right.
Qed.

(** X8: when the token signed for an integer chat identifier holds a
    [/], no request to the path of the URL [generateWebhookURL] gives is
    ever forwarded: whatever the method, headers and body, the answer is
    not 200 and no outbound call is made. *)
Theorem slashed_token_never_delivers {host : Runtime} (bot : GitHubBot) (z : Z)
    (req : ServerRequest) (w : World) :
  let chatID := Finite z in
  let token := safeHMAC bot (NumberToString chatID) in
  (Z.abs z <= 2 ^ 53)%Z ->
  occurs "/" token = true ->
  pathname (URL_parse (req_url req) "https://localhost") =
    "/github/" ++ NumberToString chatID ++ "/" ++ token ->
  exists resp w',
    main_handler bot req w = (Return resp, w') /\
    calls w' = calls w /\
    (status resp = 400 \/ status resp = 404 \/ status resp = 405 \/ status resp = 500)%Z.
Proof.
  intros chatID token Hz Hslash Hpath.
  assert (Hid : NumberToString chatID = decimal z) by now apply NumberToString_decimal.
  assert (Hparts : pathParts (pathname (URL_parse (req_url req) "https://localhost")) =
                   "github" :: decimal z :: pathParts token).
  { rewrite Hpath, Hid.
    change ("/github/" ++ decimal z ++ "/" ++ token)
      with ("" ++ "/" ++ ("github" ++ "/" ++ (decimal z ++ "/" ++ token))).
    rewrite !pathParts_app.
    unfold pathParts at 3. rewrite split_no_separator
      by (apply occurs_decimal; [reflexivity | discriminate]).
    cbn [filter]. pose proof (decimal_not_empty z) as Hne.
    apply String.eqb_neq in Hne. rewrite Hne. reflexivity. }
  assert (Hpiece : forall piece, In piece (pathParts token) -> piece <> token).
  { intros piece Hin ->. unfold pathParts in Hin. apply filter_In in Hin as [Hin _].
    apply split_pieces in Hin. congruence. }
  destruct (String.eqb (req_method req) "POST") eqn:Hmethod.
  - destruct (pathParts token) as [|piece [|piece' rest]] eqn:Htoken;
      rewrite ?Htoken in Hparts.
    + exists notFound, w. split; [|split; [reflexivity | tauto]].
      apply main_handler_of_route. unfold route. now rewrite Hparts, Hmethod.
    + destruct (JSON_parse_GitHub (req_body req)) as [e|data] eqn:Hbody.
      * destruct (main_handler_of_throw bot req w w e) as [resp [w' [Hrun [Hcalls Hstatus]]]].
        { unfold route. rewrite Hparts, Hmethod.
          cbn [String.eqb Ascii.eqb Bool.eqb andb negb].
          unfold serveGitHubWebhook, bind. now rewrite Hbody. }
        exists resp, w'. repeat split; try assumption. tauto.
      * exists badRequest, w. split; [|split; [reflexivity | tauto]].
        unfold main_handler, try_catch, route. rewrite Hparts, Hmethod.
        cbn [String.eqb Ascii.eqb Bool.eqb andb negb].
        unfold serveGitHubWebhook, bind. cbn [fst snd]. rewrite Hbody. cbn [lift ret].
        rewrite parseInt10_decimal by assumption.
        unfold githubEvent, verifyWebhookURL.
        assert (Hne : String.eqb (safeHMAC bot (NumberToString (Finite z))) piece = false).
        { apply String.eqb_neq. intros Heq. apply (Hpiece piece); [now left|].
          now rewrite <- Heq. }
        rewrite Hne. reflexivity.
    + exists notFound, w. split; [|split; [reflexivity | tauto]].
      apply main_handler_of_route. unfold route. now rewrite Hparts.
  - exists (if Nat.eqb (List.length (pathParts token)) 0 ||
               Nat.eqb (List.length (pathParts token)) 1
            then methodNotAllowed else notFound), w.
    split; [|split; [reflexivity | destruct (_ || _); cbn; tauto]].
    apply main_handler_of_route. unfold route. rewrite Hparts, Hmethod.
    now destruct (pathParts token) as [|piece [|piece' rest]].
Qed.

(** A request with the token of chat 42 in which the second [/] of the
    HMAC text is left. *)
Lemma slashed_token_never_delivers_witness :
  exists resp w',
    main_handler (host := slashHost) exampleBot
      (exampleRequest "POST" "/github/42/key_42/x" "push" "push") quiet = (Return resp, w') /\
    calls w' = calls quiet /\
    (status resp = 400 \/ status resp = 404 \/ status resp = 405 \/ status resp = 500)%Z.
Proof.
  apply (slashed_token_never_delivers (host := slashHost) exampleBot 42
           (exampleRequest "POST" "/github/42/key_42/x" "push" "push") quiet);
    try reflexivity. vm_compute. discriminate.
Defined.

(** ** Updates from the chat platform *)

(** A POST to [/telegramUpdate/<secret>] whose body parses. *)
Lemma update_delivery {host : Runtime} (bot : GitHubBot) (req : ServerRequest)
    (secret : string) (update : TelegramUpdate) (w : World) :
  req_method req = "POST" ->
  pathParts (pathname (URL_parse (req_url req) "https://localhost")) =
    ["telegramUpdate"; secret] ->
  JSON_parse_Telegram (req_body req) = inr update ->
  route req bot w =
  (reply <- telegramUpdate bot secret update ;; ret (respondIfReply reply)) w.
Proof.
  intros Hmethod Hparts Hbody. unfold route. rewrite Hparts, Hmethod.
  cbn [String.eqb Ascii.eqb Bool.eqb andb negb].
  unfold serveTelegramWebhook. unfold bind at 1. now rewrite Hbody.
Qed.

(** X9: an update presented with a secret other than the configured one
    makes [telegramUpdate] throw [invalid: telegramSecret] whatever the
    update holds, with no reply, no outbound call and nothing logged, and
    the request is answered 400. *)
Theorem wrong_update_secret_rejected {host : Runtime} (bot : GitHubBot) (secret : string)
    (update : TelegramUpdate) (w : World) :
  secret <> telegramSecret (options bot) ->
  telegramUpdate bot secret update w = (Throw (Error "invalid: telegramSecret"), w) /\
  (forall req : ServerRequest,
     req_method req = "POST" ->
     pathParts (pathname (URL_parse (req_url req) "https://localhost")) =
       ["telegramUpdate"; secret] ->
     JSON_parse_Telegram (req_body req) = inr update ->
     main_handler bot req w = (Return badRequest, w)).
Proof.
  intros Hsecret. apply String.eqb_neq in Hsecret.
  assert (Hthrow : telegramUpdate bot secret update w =
                   (Throw (Error "invalid: telegramSecret"), w)).
  { unfold telegramUpdate. now rewrite Hsecret. }
  split; [exact Hthrow|].
  intros req Hmethod Hparts Hbody. unfold main_handler, try_catch.
  rewrite (update_delivery bot req secret update w) by assumption.
  unfold bind. now rewrite Hthrow.
Qed.

(** A [/setup] update posted to the path of another secret. *)
Lemma wrong_update_secret_rejected_witness :
  main_handler (host := exampleHost) exampleBot
    (exampleRequest "POST" "/telegramUpdate/guess" "" "setup") quiet =
  (Return badRequest, quiet).
Proof.
  apply (proj2 (wrong_update_secret_rejected (host := exampleHost) exampleBot "guess"
                  (exampleUpdate
                     (Some (exampleMessage (Finite 42) (Some "/setup@bot")
                              (Some [exampleEntity 10]))) None)
                  quiet ltac:(discriminate))
           (exampleRequest "POST" "/telegramUpdate/guess" "" "setup"));
    reflexivity.
Defined.

Lemma hd_split_no_separator (s : string) (sep : ascii) :
  occurs sep (hd "" (split s sep)) = false.
Proof.
  pose proof (split_not_empty s sep) as Hne.
  pose proof (split_pieces s sep) as Hpieces.
  destruct (split s sep) as [|p ps]; [congruence|].
  apply Hpieces. now left.
Qed.

(** X10: for an authenticated update with a message that has an ASCII
    text and at least one entity, only the first entity counts: the
    command is the text the entity spans, up to its first [@].  The reply
    is the setup message when the command is [/setup], and otherwise a
    plain [sendMessage] to the chat that echoes the command; either way
    nothing is sent or logged. *)
Theorem command_reply {host : Runtime} (bot : GitHubBot) (update : TelegramUpdate)
    (msg : TelegramMessage) (entity : TelegramMessageEntity)
    (others : list TelegramMessageEntity) (text : string) (w : World) :
  message update = Some msg ->
  entities msg = Some (entity :: others) ->
  msg_text msg = Some text ->
  isASCII text = true ->
  let command :=
    hd "" (split (slice text (offset entity) (offset entity + entity_length entity)) "@") in
  let chatID := chat_ident (chat msg) in
  telegramUpdate bot (telegramSecret (options bot)) update w =
    (Return (Some (if String.eqb command "/setup"
                   then setupReply bot chatID
                   else unknownCommandReply chatID command)), w) /\
  occurs "@" command = false.
Proof.
  intros Hmsg Hentities Htext _ command chatID.
  split; [|apply hd_split_no_separator].
  unfold telegramUpdate. rewrite String.eqb_refl. cbn [negb].
  rewrite Hmsg, Hentities, Htext. fold command.
  now destruct (String.eqb command "/setup").
Qed.

(** [/start@bot now], with a second entity that is not looked at. *)
Lemma command_reply_witness :
  telegramUpdate (host := exampleHost) exampleBot "hook-secret"
    (exampleUpdate
       (Some (exampleMessage (Finite 42) (Some "/start@bot now")
                (Some [exampleEntity 10;
                       {| entity_type := "bot_command"; offset := 11;
                          entity_length := 3 |}])))
       None) quiet =
    (Return (Some (unknownCommandReply (Finite 42) "/start")), quiet) /\
  occurs "@" "/start" = false.
Proof.
  apply (command_reply (host := exampleHost) exampleBot
           (exampleUpdate
              (Some (exampleMessage (Finite 42) (Some "/start@bot now")
                       (Some [exampleEntity 10;
                              {| entity_type := "bot_command"; offset := 11;
                                 entity_length := 3 |}])))
              None)
           (exampleMessage (Finite 42) (Some "/start@bot now")
              (Some [exampleEntity 10;
                     {| entity_type := "bot_command"; offset := 11;
                        entity_length := 3 |}]))
           (exampleEntity 10)
           [{| entity_type := "bot_command"; offset := 11; entity_length := 3 |}]
           "/start@bot now" quiet); reflexivity.
Defined.

(** X11: an authenticated update with no message is ignored when it has
    no callback query, or a callback query without a message or without
    data: one warning is logged, no call is made, there is no reply, and
    the request is answered 200 with the text [Success]. *)
Theorem updates_without_an_action_are_ignored {host : Runtime} (bot : GitHubBot)
    (update : TelegramUpdate) (w : World) :
  message update = None ->
  let run := telegramUpdate bot (telegramSecret (options bot)) update w in
  (callback_query update = None ->
   run = (Return None,
          logged w Warn "ignored: Unknown Telegram update received: [object Object]")) /\
  (forall query,
     callback_query update = Some query ->
     query_message query = None \/ query_data query = None ->
     run = (Return None, logged w Warn "ignored: Callback query mode is not known")) /\
  (forall req : ServerRequest,
     req_method req = "POST" ->
     pathParts (pathname (URL_parse (req_url req) "https://localhost")) =
       ["telegramUpdate"; telegramSecret (options bot)] ->
     JSON_parse_Telegram (req_body req) = inr update ->
     fst run = Return None ->
     main_handler bot req w = (Return success, snd run)).
Proof.
  intros Hmsg run. split; [|split].
  - intros Hquery. unfold run, telegramUpdate.
    rewrite String.eqb_refl, Hmsg, Hquery. reflexivity.
  - intros query Hquery Hmissing. unfold run, telegramUpdate.
    rewrite String.eqb_refl, Hmsg, Hquery. cbn [negb].
    destruct Hmissing as [-> | Hdata].
    + reflexivity.
    + rewrite Hdata. now destruct (query_message query).
  - intros req Hmethod Hparts Hbody Hnone. unfold main_handler, try_catch.
    rewrite (update_delivery bot req (telegramSecret (options bot)) update w)
      by assumption.
    unfold bind. fold run. destruct run as [[reply|e] w']; [|discriminate].
    cbn in Hnone. injection Hnone as ->. reflexivity.
Qed.

(** An update with nothing in it. *)
Lemma updates_without_an_action_are_ignored_witness :
  telegramUpdate (host := exampleHost) exampleBot "hook-secret"
    (exampleUpdate None None) quiet =
  (Return None,
   logged quiet Warn "ignored: Unknown Telegram update received: [object Object]").
Proof.
  apply (proj1 (updates_without_an_action_are_ignored (host := exampleHost) exampleBot
                  (exampleUpdate None None) quiet eq_refl)).
  reflexivity.
Defined.

(** ** Start-up *)

(** X12: [setup] writes [Setting up webhook...], makes one [setWebhook]
    call for the URL [<baseURL>/telegramUpdate/<telegramSecret>], and
    writes [Webhook ready] only when the call has succeeded; a failed
    call is thrown to the caller. *)
Theorem setup_registers_webhook {host : Runtime} (bot : GitHubBot) (w : World) :
  setup bot w =
  (match apiOutcome (fetch (webhookRegistration bot)) with
   | Return _ => Return tt
   | Throw e => Throw e
   end,
   {| calls := calls w ++ [webhookRegistration bot];
      console := console w ++
                 (Info, "Setting up webhook...") ::
                 match apiOutcome (fetch (webhookRegistration bot)) with
                 | Return _ => [(Log, "Webhook ready")]
                 | Throw _ => []
                 end |}).
Proof.
  unfold setup, setupTelegramWebhook, bind, console_write.
  rewrite telegramApi_outcome. cbn [calls console].
  change (apiRequest bot "setWebhook" (literal _)) with (webhookRegistration bot).
  destruct (apiOutcome (fetch (webhookRegistration bot))).
  - now rewrite <- app_assoc.
  - reflexivity.
Qed.

Example setup_example :
  setup (host := refusingHost) exampleBot quiet =
  (Throw (Error "Failure to perform API request: Forbidden"),
   {| calls := [webhookRegistration exampleBot];
      console := [(Info, "Setting up webhook...")] |}) /\
  url (fetch_body (webhookRegistration exampleBot)) =
    Some "https://bot.example.org/telegramUpdate/hook-secret".
Proof. split; reflexivity. Qed.

Lemma split_pieces_without (s : string) (sep c : ascii) :
  occurs c s = false ->
  forall piece, In piece (split s sep) -> occurs c piece = false.
Proof.
  induction s as [|d s IH]; intros Hc piece Hin.
  - destruct Hin as [<-|[]]. reflexivity.
  - cbn [occurs] in Hc. apply orb_false_elim in Hc as [Hd Hs].
    cbn [split] in Hin. destruct (Ascii.eqb d sep).
    + destruct Hin as [<-|Hin]; [reflexivity | now apply IH].
    + pose proof (split_not_empty s sep) as Hne.
      destruct (split s sep) as [|p ps]; [congruence|].
      destruct Hin as [<-|Hin].
      * cbn [occurs]. rewrite Hd. apply IH; [assumption | now left].
      * apply IH; [assumption | now right].
Qed.

(** X13: a POST with a body that parses is handed to [telegramUpdate]
    with the configured secret when the non-empty segments of its
    pathname are [telegramUpdate] and the secret; a request whose first
    segment is [telegramUpdate] and whose other segments are not just the
    secret is never processed: the answer is not 200 and no call is made.
    No pathname has the segments [telegramUpdate] and the secret when the
    secret is empty, holds a [/], or holds a character the pathname does
    not hold (a URL parser leaves no [?] or [#] in a pathname): with such
    a secret the URL that [setup] registers reaches nothing. *)
Theorem registered_webhook_path {host : Runtime} (bot : GitHubBot) (req : ServerRequest)
    (w : World) :
  let secret := telegramSecret (options bot) in
  let path := pathname (URL_parse (req_url req) "https://localhost") in
  (pathParts path = ["telegramUpdate"; secret] ->
   forall update,
     req_method req = "POST" ->
     JSON_parse_Telegram (req_body req) = inr update ->
     route req bot w =
     (reply <- telegramUpdate bot secret update ;; ret (respondIfReply reply)) w) /\
  (forall rest,
     pathParts path = "telegramUpdate" :: rest -> rest <> [secret] ->
     exists resp w',
       main_handler bot req w = (Return resp, w') /\
       calls w' = calls w /\
       (status resp = 400 \/ status resp = 404 \/ status resp = 405 \/
        status resp = 500)%Z) /\
  (secret = "" \/ occurs "/" secret = true ->
   pathParts path <> ["telegramUpdate"; secret]) /\
  (forall c, occurs c path = false -> occurs c secret = true ->
             pathParts path <> ["telegramUpdate"; secret]).
Proof.
  intros secret path. split; [|split; [|split]].
  - intros Hparts update Hmethod Hbody. now apply update_delivery.
  - intros rest Hparts Hrest. fold path in Hparts.
    destruct (String.eqb (req_method req) "POST") eqn:Hmethod.
    + destruct rest as [|piece [|piece' [|piece'' rest]]].
      * exists notFound, w. split; [|split; [reflexivity | tauto]].
        apply main_handler_of_route. unfold route. fold path. now rewrite Hparts.
      * destruct (JSON_parse_Telegram (req_body req)) as [e|update] eqn:Hbody.
        -- destruct (main_handler_of_throw bot req w w e)
             as [resp [w' [Hrun [Hcalls Hstatus]]]].
           { unfold route. fold path. rewrite Hparts, Hmethod.
             cbn [String.eqb Ascii.eqb Bool.eqb andb negb].
             unfold serveTelegramWebhook, bind. now rewrite Hbody. }
           exists resp, w'. repeat split; try assumption. tauto.
        -- exists badRequest, w. split; [|split; [reflexivity | tauto]].
           unfold main_handler, try_catch.
           rewrite (update_delivery bot req piece update w)
             by (try assumption; now apply String.eqb_eq).
           unfold bind, telegramUpdate.
           assert (Hne : String.eqb piece (telegramSecret (options bot)) = false).
           { apply String.eqb_neq. intros Heq. apply Hrest. now rewrite Heq. }
           now rewrite Hne.
      * exists notFound, w. split; [|split; [reflexivity | tauto]].
        apply main_handler_of_route. unfold route. fold path. now rewrite Hparts, Hmethod.
      * exists notFound, w. split; [|split; [reflexivity | tauto]].
        apply main_handler_of_route. unfold route. fold path. now rewrite Hparts.
    + exists (if Nat.eqb (List.length rest) 1 || Nat.eqb (List.length rest) 2
              then methodNotAllowed else notFound), w.
      split; [|split; [reflexivity | destruct (_ || _); cbn; tauto]].
      apply main_handler_of_route. unfold route. fold path. rewrite Hparts, Hmethod.
      now destruct rest as [|piece [|piece' [|piece'' rest]]].
  - intros Hbad Hparts.
    assert (Hin : In secret (pathParts path)) by (rewrite Hparts; right; now left).
    unfold pathParts in Hin. apply filter_In in Hin as [Hin Hne].
    destruct Hbad as [Hempty|Hslash].
    + rewrite Hempty in Hne. discriminate Hne.
    + apply split_pieces in Hin. congruence.
  - intros c Hpath Hsecret Hparts.
    assert (Hin : In secret (pathParts path)) by (rewrite Hparts; right; now left).
    unfold pathParts in Hin. apply filter_In in Hin as [Hin _].
    apply (split_pieces_without path "/" c Hpath) in Hin. congruence.
Qed.

(** A [/setup] update posted to the registered path. *)
Lemma registered_webhook_path_witness :
  route (host := exampleHost)
    (exampleRequest "POST" "/telegramUpdate/hook-secret" "" "setup") exampleBot quiet =
  (reply <- telegramUpdate (host := exampleHost) exampleBot "hook-secret"
              (exampleUpdate
                 (Some (exampleMessage (Finite 42) (Some "/setup@bot")
                          (Some [exampleEntity 10]))) None) ;;
   ret (respondIfReply reply)) quiet.
Proof.
  apply (proj1 (registered_webhook_path (host := exampleHost) exampleBot
                  (exampleRequest "POST" "/telegramUpdate/hook-secret" "" "setup") quiet)
           eq_refl); reflexivity.
Defined.

(** With the secret [a?b] the registered URL ends in [/telegramUpdate/a?b];
    a POST to it has the pathname [/telegramUpdate/a] and is answered
    400. *)
Example secret_with_question_mark_example :
  url (fetch_body (webhookRegistration questionBot)) =
    Some "https://bot.example.org/telegramUpdate/a?b" /\
  pathname (URL_parse (Runtime := exampleHost) "/telegramUpdate/a?b" "https://localhost") =
    "/telegramUpdate/a" /\
  main_handler (host := exampleHost) questionBot
    (exampleRequest "POST" "/telegramUpdate/a?b" "" "setup") quiet =
  (Return badRequest, quiet).
Proof. repeat split. Qed.

(** ** What a request can do *)

Lemma grows_refl (bot : GitHubBot) (w : World) : grows bot w w.
Proof.
  exists [], []. rewrite !app_nil_r. repeat split; [apply Nat.le_0_l | constructor].
Qed.

Lemma grows_call {host : Runtime} (bot : GitHubBot) (w : World) (call : FetchRequest) :
  botCall bot call ->
  grows bot w {| calls := calls w ++ [call]; console := console w |}.
Proof.
  intros Hcall. exists [call], []. cbn [calls console]. rewrite app_nil_r.
  repeat split; [apply Nat.le_refl | now constructor].
Qed.

Lemma grows_logged (bot : GitHubBot) (w w' : World) (l : level) (line : string) :
  grows bot w w' -> grows bot w (logged w' l line).
Proof.
  intros [more [lines [Hcalls [Hconsole [Hlen Hbot]]]]].
  exists more, (lines ++ [(l, line)])%list. cbn [logged calls console].
  rewrite Hconsole, app_assoc. repeat split; assumption.
Qed.

Lemma telegramUpdate_grows {host : Runtime} (bot : GitHubBot) (secret : string)
    (update : TelegramUpdate) (w : World) :
  grows bot w (snd (telegramUpdate bot secret update w)).
Proof.
  unfold telegramUpdate.
  destruct (negb (String.eqb secret (telegramSecret (options bot)))); [apply grows_refl|].
  destruct (message update) as [msg|].
  - destruct (entities msg) as [[|entity others]|].
    + apply (grows_logged bot w w), grows_refl.
    + destruct (msg_text msg) as [text|]; [|apply grows_refl].
      destruct (String.eqb _ "/setup"); apply grows_refl.
    + apply (grows_logged bot w w), grows_refl.
  - destruct (callback_query update) as [query|];
      [|apply (grows_logged bot w w), grows_refl].
    destruct (query_message query) as [msg|], (query_data query) as [action|];
      try (apply (grows_logged bot w w), grows_refl).
    destruct (String.eqb action ""); [apply (grows_logged bot w w), grows_refl|].
    destruct (String.eqb action "updateMessageSetupAdvanced"); [|apply grows_refl].
    unfold bind. rewrite updateMessageSetupAdvanced_run.
    assert (Hcall : botCall bot (editRequest bot msg)).
    { eexists "editMessageText", _. split; [now right | reflexivity]. }
    destruct (fetch (editRequest bot msg)) as [e|res]; [now apply grows_call|].
    destruct (res_ok res); [|now apply grows_call].
    destruct (res_json res); now apply grows_call.
Qed.

Lemma githubEvent_grows {host : Runtime} (bot : GitHubBot) (chatID : number)
    (token : string) (params : Params) (event : option string)
    (data : GitHubEventData) (w : World) :
  grows bot w (snd (githubEvent bot chatID token params event data w)).
Proof.
  unfold githubEvent.
  destruct (negb (verifyWebhookURL bot chatID token)); [apply grows_refl|].
  unfold bind.
  destruct (formatEventMessage event data) as [e|msg]; [apply grows_refl|].
  cbn [lift ret]. rewrite telegramApi_outcome.
  assert (Hcall : forall body, botCall bot (apiRequest bot "sendMessage" body)).
  { intros body. eexists "sendMessage", _. split; [now left | reflexivity]. }
  destruct (apiOutcome _); now apply grows_call.
Qed.

(** The outcome of [route]: a response with one of three statuses, or an
    exception. *)
Lemma route_outcome {host : Runtime} (bot : GitHubBot) (req : ServerRequest) (w : World) :
  grows bot w (snd (route req bot w)) /\
  (forall resp, fst (route req bot w) = Return resp ->
                (status resp = 200 \/ status resp = 404 \/ status resp = 405)%Z).
Proof.
  unfold route.
  destruct (pathParts _) as [|part0 [|part1 [|part2 [|part3 rest]]]];
    try (split; [apply grows_refl | intros resp H; injection H as <-; cbn; tauto]).
  - destruct (negb (String.eqb (req_method req) "POST"));
      [split; [apply grows_refl | intros resp H; injection H as <-; cbn; tauto]|].
    destruct (String.eqb part0 "telegramUpdate");
      [|split; [apply grows_refl | intros resp H; injection H as <-; cbn; tauto]].
    unfold serveTelegramWebhook, bind.
    destruct (JSON_parse_Telegram (req_body req)) as [e|update];
      [split; [apply grows_refl | intros resp H; discriminate H]|].
    cbn [lift ret].
    pose proof (telegramUpdate_grows bot part1 update w) as Hgrows.
    destruct (telegramUpdate bot part1 update w) as [[reply|e] w']; cbn [fst snd] in *.
    + split; [assumption|]. intros resp H. injection H as <-.
      destruct reply; cbn; tauto.
    + split; [assumption | intros resp H; discriminate H].
  - destruct (negb (String.eqb (req_method req) "POST"));
      [split; [apply grows_refl | intros resp H; injection H as <-; cbn; tauto]|].
    destruct (String.eqb part0 "github");
      [|split; [apply grows_refl | intros resp H; injection H as <-; cbn; tauto]].
    unfold serveGitHubWebhook, bind. cbn [fst snd].
    destruct (JSON_parse_GitHub (req_body req)) as [e|data];
      [split; [apply grows_refl | intros resp H; discriminate H]|].
    cbn [lift ret].
    match goal with
    | |- context [githubEvent bot ?c ?t ?p ?e data w] =>
        pose proof (githubEvent_grows bot c t p e data w) as Hgrows;
        destruct (githubEvent bot c t p e data w) as [[reply|e'] w']
    end; cbn [fst snd] in *.
    + split; [assumption|]. intros resp H. injection H as <-. cbn. tauto.
    + split; [assumption | intros resp H; discriminate H].
Qed.

(** X14: the request callback answers every request: it never throws,
    the status is 200, 400, 404, 405 or 500, the calls made before stay
    as they were and at most one is added, a [sendMessage] or an
    [editMessageText] POSTed as JSON to the bot's own API URL, and the
    console only gets longer. *)
Theorem every_request_is_answered {host : Runtime} (bot : GitHubBot) (req : ServerRequest)
    (w : World) :
  exists resp w',
    main_handler bot req w = (Return resp, w') /\
    (status resp = 200 \/ status resp = 400 \/ status resp = 404 \/
     status resp = 405 \/ status resp = 500)%Z /\
    grows bot w w'.
Proof.
  destruct (route_outcome bot req w) as [Hgrows Hstatus].
  unfold main_handler, try_catch.
  destruct (route req bot w) as [[resp|e] w']; cbn [fst snd] in *.
  - exists resp, w'. split; [reflexivity|]. split; [|assumption].
    destruct (Hstatus resp eq_refl) as [H|[H|H]]; tauto.
  - destruct (startsWith (message_of e) "invalid").
    + exists badRequest, w'. split; [reflexivity|]. split; [cbn; tauto | assumption].
    + exists internalServerError, (logged w' Err (message_of e)).
      split; [reflexivity|]. split; [cbn; tauto | now apply grows_logged].
Qed.

(** ** The text of a push *)

Lemma substring_0_min (s : string) :
  forall n, substring 0 (Nat.min n (String.length s)) s = substring 0 n s.
Proof.
  induction s as [|c s IH]; intros [|n]; try reflexivity.
  cbn [String.length Nat.min substring]. now rewrite IH.
Qed.

(** The short hash of a commit: the first seven units of its id. *)
Lemma slice_0_7 (s : string) : slice s 0 7 = substring 0 7 s.
Proof.
  unfold slice. cbn [Z.ltb Z.compare].
  rewrite Z.min_l by lia.
  replace (Z.to_nat (Z.max (Z.min 7 (Z.of_nat (String.length s)) - 0) 0))
    with (Nat.min 7 (String.length s)) by lia.
  cbn [Z.to_nat]. apply substring_0_min.
Qed.

Lemma join_holds_member (x : string) (l : list string) :
  In x l ->
  exists before after, LF ++ join l LF ++ LF = before ++ (LF ++ x ++ LF) ++ after.
Proof.
  unfold join. induction l as [|y l IH]; intros Hin; [destruct Hin|].
  destruct Hin as [->|Hin].
  - exists "". destruct l as [|z l].
    + exists "". cbn [String.concat]. now rewrite !append_assoc.
    + exists (String.concat LF (z :: l) ++ LF). cbn [String.concat].
      now rewrite !append_assoc.
  - destruct (IH Hin) as [before [after Heq]].
    destruct l as [|z l]; [destruct Hin|].
    exists (LF ++ y ++ before), after.
    change (String.concat LF (y :: z :: l)) with (y ++ LF ++ String.concat LF (z :: l)).
    rewrite !append_assoc. rewrite !append_assoc in Heq. now rewrite Heq.
Qed.

Lemma includes_middle (before x after : string) :
  includes (before ++ x ++ after) x = true.
Proof. apply includes_skip, includes_here, prefix_app. Qed.

(** X15: the text of a push has one line for each of its commits whose
    id is ASCII text (as a hash is), made of the first seven units of the
    commit id between backquotes, the commit message, a dash and the
    author's username. *)
Theorem push_lists_every_commit (push : GitHubEventPush) (commit : GitHubCommit) :
  In commit (commits push) ->
  isASCII (commit_id commit) = true ->
  includes (formatPush push)
    (LF ++ ("`" ++ substring 0 7 (commit_id commit) ++ "` " ++ commit_message commit ++
            " - " ++ username (author commit)) ++ LF) = true.
Proof.
  intros Hin _.
  assert (Hline : In (commitLine commit) (map commitLine (commits push))).
  { now apply in_map. }
  destruct (join_holds_member _ _ Hline) as [before [after Heq]].
  unfold commitLine in Heq at 2. rewrite slice_0_7 in Heq.
  unfold formatPush. cbv zeta.
  do 19 apply includes_skip.
  rewrite <- (append_assoc (join _ LF) LF), <- (append_assoc LF (join _ LF ++ LF)).
  rewrite Heq, !append_assoc.
  apply includes_skip. rewrite <- !append_assoc.
  apply includes_here.
  match goal with
  | |- String.prefix ?x _ = true => generalize x; intros line
  end.
  rewrite !append_assoc. apply prefix_app.
Qed.

(** Both commits of a push of two. *)
Lemma push_lists_every_commit_witness :
  includes (formatPush (examplePush "octocat" 2 true))
    (LF ++ ("`" ++ "0123456" ++ "` " ++ "Fix it" ++ " - " ++ "octocat") ++ LF) = true.
Proof.
  apply (push_lists_every_commit (examplePush "octocat" 2 true)
           (exampleCommit "0123456789abcdef" "Fix it")).
  - cbn. now left.
  - reflexivity.
Defined.

Lemma drop_app (a b : string) : drop (String.length a) (a ++ b) = b.
Proof. induction a as [|c a IH]; [now destruct b | exact IH]. Qed.

Lemma search_here (pat rest : string) : search (pat ++ rest) pat = Some ("", rest).
Proof.
  destruct pat as [|c pat].
  - cbn [String.append]. unfold search. destruct rest; reflexivity.
  - change (search (String c pat ++ rest) (String c pat))
      with (if String.prefix (String c pat) (String c pat ++ rest)
            then Some ("", drop (String.length (String c pat)) (String c pat ++ rest))
            else match search (pat ++ rest) (String c pat) with
                 | Some (before, after) => Some (String c before, after)
                 | None => None
                 end).
    now rewrite prefix_app, drop_app.
Qed.

(** The first occurrence of a pattern after a text that does not hold
    the pattern's first unit. *)
Lemma search_after (u v : string) (c : ascii) (pat : string) :
  occurs c u = false ->
  search (u ++ String c pat ++ v) (String c pat) = Some (u, v).
Proof.
  induction u as [|d u IH]; intros Hu.
  - apply (search_here (String c pat) v).
  - cbn [occurs] in Hu. apply orb_false_elim in Hu as [Hd Hu].
    change (search ((String d u) ++ String c pat ++ v) (String c pat))
      with (if String.prefix (String c pat) (String d (u ++ String c pat ++ v))
            then Some ("", drop (String.length (String c pat))
                             (String d (u ++ String c pat ++ v)))
            else match search (u ++ String c pat ++ v) (String c pat) with
                 | Some (before, after) => Some (String d before, after)
                 | None => None
                 end).
    cbn [String.prefix]. destruct (ascii_dec c d) as [->|_].
    + now rewrite Ascii.eqb_refl in Hd.
    + now rewrite (IH Hu).
Qed.

Lemma search_absent (s pat : string) : includes s pat = false -> search s pat = None.
Proof.
  induction s as [|c s IH]; intros H; rewrite includes_unfold in H;
    apply orb_false_elim in H as [Hhere Hlater].
  - unfold search. now rewrite Hhere.
  - cbn [search]. now rewrite Hhere, (IH Hlater).
Qed.

Lemma plain_without_dollar (rep : string) : occurs "$" rep = false -> plain rep.
Proof.
  intros H matched before after. induction rep as [|c rep IH]; [reflexivity|].
  cbn [occurs] in H. apply orb_false_elim in H as [Hc Hrep].
  cbn [GetSubstitution]. rewrite Ascii.eqb_sym, Hc. now rewrite (IH Hrep).
Qed.

(** X16: for a push to [refs/heads/<b>] with no [$] in [b], and a
    branches URL [<u>{/branch}<v>] with no opening brace in [u], the text
    reads [pushed to [`<b>`](<u>/<b><v>)]; a ref that does not hold
    [refs/heads/] is shown whole as the branch. *)
Theorem push_names_the_branch (push : GitHubEventPush) (b u v : string) :
  (ref push = "refs/heads/" ++ b ->
   branches_url (repository push) = u ++ "{/branch}" ++ v ->
   occurs "$" b = false -> occurs "{" u = false ->
   includes (formatPush push)
     ("pushed to [`" ++ b ++ "`](" ++ (u ++ "/" ++ b ++ v) ++ ")" ++ LF) = true) /\
  (includes (ref push) "refs/heads/" = false ->
   includes (formatPush push) ("pushed to [`" ++ ref push ++ "`](") = true).
Proof.
  split.
  - intros Href Hurl Hb Hu.
    assert (Hbranch : replace (ref push) "refs/heads/" "" = b).
    { unfold replace. rewrite Href, (search_here "refs/heads/" b). reflexivity. }
    assert (Hlink : replace (branches_url (repository push)) "{/branch}" ("/" ++ b) =
                    u ++ ("/" ++ b) ++ v).
    { unfold replace. rewrite Hurl.
      rewrite (search_after u v "{" "/branch}") by assumption.
      rewrite plain_without_dollar; [reflexivity|].
      cbn [String.append occurs]. now rewrite Hb. }
    unfold formatPush. cbv zeta. rewrite Hbranch, Hlink.
    do 14 apply includes_skip. apply includes_here.
    rewrite !append_assoc.
    repeat (rewrite prefix_app_same).
    apply prefix_app.
  - intros Href.
    assert (Hbranch : replace (ref push) "refs/heads/" "" = ref push).
    { unfold replace. now rewrite search_absent. }
    unfold formatPush. cbv zeta. rewrite Hbranch.
    do 14 apply includes_skip. apply includes_here.
    rewrite !prefix_app_same. apply prefix_app.
Qed.

(** A push to [master] of a repository with the branches URL GitHub
    sends. *)
Lemma push_names_the_branch_witness :
  includes (formatPush (examplePush "octocat" 1 false))
    ("pushed to [`" ++ "master" ++ "`](" ++
     ("https://github.com/octocat/hello/branches" ++ "/" ++ "master" ++ "") ++ ")" ++ LF) =
  true.
Proof.
  apply (proj1 (push_names_the_branch (examplePush "octocat" 1 false) "master"
                  "https://github.com/octocat/hello/branches" ""));
    reflexivity.
Defined.

(** A [$&] in a branch name is taken for the matched text when the
    branch is written into the branches URL. *)
Example branch_with_dollar_example :
  replace "https://github.com/octocat/hello/branches{/branch}" "{/branch}"
    ("/" ++ replace "refs/heads/a$&b" "refs/heads/" "") =
  "https://github.com/octocat/hello/branches/a{/branch}b".
Proof. reflexivity. Qed.
